(** * CCD Visualizer: the spreadsheet-to-report transformation of [app.py]

    A shallow embedding of [read_excel_contents] and [update_output]
    (src/app.py, lines 46-132) together with the library calls they make
    ([str.split], [base64.b64decode], [pandas.read_excel], [DataFrame.iloc],
    [pandas.to_numeric], [numpy.max] on a row, [Series.value_counts],
    [Series.sort_index], [DataFrame.to_dict]).

    Numbers.  A spreadsheet cell that holds a number holds a binary64
    value.  Every finite float is a rational, and comparison and equality of
    floats are comparison and equality of the rationals they denote; cells
    are therefore modelled with [Q].  What a rational does not tell is kept
    in its representation: the two zeros, which compare equal, are [0 # 1]
    (positive) and [0 # 2] (negative), and an infinity is a rational of
    magnitude [2 ^ 1024], which is above every finite float.  The
    not-a-number value of pandas is the separate constructor [NaN].  The
    rounding of an exact quotient or product to the nearest float is the
    section parameter [fround] (an executable instance, [round_binary64],
    is given); overflow to infinity and the sign of the result are defined
    here.

    Library calls.  The bytes of a workbook are read by the section parameter
    [read_workbook]; the texts that [pandas.to_numeric] accepts are given by
    [parse_number], and the text of a number in a label by [show_num].
    Everything else is defined here and can be run. *)

From Stdlib Require Import List String Ascii Bool Arith ZArith NArith QArith Qabs Lia.
From Stdlib Require Import Sorted Permutation DecimalString DecimalNat DecimalN.
From Stdlib.Strings Require Import Byte.
Import ListNotations.

Local Open Scope string_scope.
Local Open Scope list_scope.

(** ** Exceptions and the error monad *)

(** The Python exceptions that lines 46-60 can raise. *)
Inductive exn : Type :=
| ValueError_unpack          (* line 47: split did not give two parts *)
| ValueError_non_ascii       (* line 48: b64decode of a non-ASCII str *)
| binascii_Error             (* line 48: incorrect padding *)
| ExcelReadError             (* line 49: read_excel cannot read the bytes *)
| IndexError                 (* line 50: positional indexer out of bounds *)
| ValueError_length_mismatch (* line 51: wrong number of column labels *).

Inductive result (A : Type) : Type :=
| Ok (a : A)
| Raise (e : exn).
Arguments Ok {A} a.
Arguments Raise {A} e.

Definition bind {A B : Type} (r : result A) (k : A -> result B) : result B :=
  match r with
  | Ok a => k a
  | Raise e => Raise e
  end.

Notation "x <- r ;; k" := (bind r (fun x => k))
  (at level 61, r at next level, right associativity).

(** The three error kinds the specification names. *)
Inductive error_kind : Type := DecodeError | ParseError | SchemaError.

(** Lines 47-48 are the transport decoding, line 49 the spreadsheet parse,
    lines 50-59 the column selection and renaming. *)
Definition kind_of (e : exn) : error_kind :=
  match e with
  | ValueError_unpack | ValueError_non_ascii | binascii_Error => DecodeError
  | ExcelReadError => ParseError
  | IndexError | ValueError_length_mismatch => SchemaError
  end.

(** ** [str.split(',')] *)

Definition comma : ascii := ","%char.

(** [s.split(sep)] for a one-character separator: the pieces between the
    occurrences of [sep], empty pieces included. *)
Fixpoint str_split (sep : ascii) (s : string) : list string :=
  match s with
  | EmptyString => [EmptyString]
  | String c s' =>
      if Ascii.eqb c sep then EmptyString :: str_split sep s'
      else match str_split sep s' with
           | piece :: pieces => String c piece :: pieces
           | [] => [String c EmptyString]
           end
  end.

Fixpoint contains (c : ascii) (s : string) : bool :=
  match s with
  | EmptyString => false
  | String c' s' => Ascii.eqb c' c || contains c s'
  end.

(** ** [base64.b64decode] with its default [validate=False] *)

(** Position of a character in the standard base-64 alphabet. *)
Definition b64_index (c : ascii) : option N :=
  let n := N_of_ascii c in
  if ((65 <=? n) && (n <=? 90))%N then Some (n - 65)%N
  else if ((97 <=? n) && (n <=? 122))%N then Some (n - 71)%N
  else if ((48 <=? n) && (n <=? 57))%N then Some (n + 4)%N
  else if (n =? 43)%N then Some 62%N
  else if (n =? 47)%N then Some 63%N
  else None.

Definition byte_of_N (n : N) : byte := byte_of_ascii (ascii_of_N (n mod 256)%N).

Definition pad_char : ascii := "="%char.

(** The decoding loop of [binascii.a2b_base64] in its non-strict mode:
    characters outside the alphabet are discarded, a complete pad sequence
    ends the input, and leftover characters of an unfinished quad are an
    error.  [quad_pos] counts the alphabet characters of the current quad,
    [leftchar] holds its pending bits, [pads] the pad characters seen since
    the last alphabet character. *)
Fixpoint a2b_base64 (s : string) (quad_pos : nat) (leftchar : N) (pads : nat)
    (out : list byte) : result (list byte) :=
  match s with
  | EmptyString =>
      if Nat.eqb quad_pos 0%nat then Ok out else Raise binascii_Error
  | String c s' =>
      if Ascii.eqb c pad_char then
        if Nat.leb 2%nat quad_pos then
          if Nat.leb 4%nat (quad_pos + S pads)%nat then Ok out
          else a2b_base64 s' quad_pos leftchar (S pads) out
        else a2b_base64 s' quad_pos leftchar pads out
      else
        match b64_index c with
        | None => a2b_base64 s' quad_pos leftchar pads out
        | Some this_ch =>
            match quad_pos with
            | 0%nat => a2b_base64 s' 1%nat this_ch 0%nat out
            | 1%nat =>
                a2b_base64 s' 2%nat (N.land this_ch 15%N) 0%nat
                  (out ++ [byte_of_N (N.lor (N.shiftl leftchar 2%N) (N.shiftr this_ch 4%N))])
            | 2%nat =>
                a2b_base64 s' 3%nat (N.land this_ch 3%N) 0%nat
                  (out ++ [byte_of_N (N.lor (N.shiftl leftchar 4%N) (N.shiftr this_ch 2%N))])
            | _ =>
                a2b_base64 s' 0%nat 0%N 0%nat
                  (out ++ [byte_of_N (N.lor (N.shiftl leftchar 6%N) this_ch)])
            end
        end
  end.

Fixpoint is_ascii_str (s : string) : bool :=
  match s with
  | EmptyString => true
  | String c s' => (N_of_ascii c <? 128)%N && is_ascii_str s'
  end.

(** [base64.b64decode(s)] on a [str]: the string is first encoded as ASCII
    ([ValueError] otherwise), then handed to [binascii.a2b_base64]. *)
Definition b64decode (s : string) : result (list byte) :=
  if is_ascii_str s then a2b_base64 s 0%nat 0%N 0%nat [] else Raise ValueError_non_ascii.

(** How many characters of a text are in the base-64 alphabet. *)
Fixpoint alphabet_count (s : string) : nat :=
  match s with
  | EmptyString => O
  | String c s' =>
      match b64_index c with
      | Some _ => S (alphabet_count s')
      | None => alphabet_count s'
      end
  end.

(** What "validly encoded" means for a payload (RFC 4648, section 4): only
    alphabet characters, then at most two pad characters, and a length that
    is a multiple of four.  This is the specification's side of the decode
    step, stated independently of the decoder. *)
Fixpoint b64_body_ok (s : string) : bool :=
  match s with
  | EmptyString => true
  | String c s' =>
      match b64_index c with
      | Some _ => b64_body_ok s'
      | None =>
          Ascii.eqb c pad_char &&
          (String.eqb s' "" || String.eqb s' "=")
      end
  end.

Definition valid_base64 (s : string) : bool :=
  b64_body_ok s && Nat.eqb (String.length s mod 4)%nat 0%nat.

(** ** Cells and numbers *)

(** A cell as [pandas.read_excel] hands it over: a number, a text, or the
    missing value.  A number is a float, written as the rational it denotes,
    with the conventions below for the negative zero and the infinities.
    (Boolean and date cells are outside the model.) *)
Inductive value : Type :=
| Num (q : Q)
| Str (s : string)
| NaN.

Definition is_nan (v : value) : bool :=
  match v with
  | Num _ => false
  | _ => true
  end.

(** The rational that stands for an infinite float: the least power of two
    above every finite binary64 value. *)
Definition float_inf : Q := inject_Z (2 ^ 1024).

(** The rational that stands for the negative zero. *)
Definition neg_zero : Q := 0 # 2.

Definition is_inf (x : Q) : bool := Qle_bool float_inf (Qabs x).

(** The sign bit of the float: set for the negative numbers and for the
    negative zero. *)
Definition sign_bit (x : Q) : bool :=
  (Qnum x <? 0)%Z || ((Qnum x =? 0)%Z && negb (Pos.eqb (Qden x) 1)).

(** The float of magnitude [m] with the given sign bit. *)
Definition with_sign (negative : bool) (m : Q) : Q :=
  if Qeq_bool m 0 then (if negative then neg_zero else 0)
  else if negative then - m else m.

(** Rounding of an exact rational to the nearest integer, ties to even. *)
Definition round_half_even (q : Q) : Z :=
  let n := Qnum q in
  let d := Zpos (Qden q) in
  let k := (n / d)%Z in
  let r := (n mod d)%Z in
  if (2 * r <? d)%Z then k
  else if (d <? 2 * r)%Z then (k + 1)%Z
  else if Z.even k then k else (k + 1)%Z.

Definition pow2 (e : Z) : Q :=
  if (0 <=? e)%Z then inject_Z (2 ^ e) else / inject_Z (2 ^ (- e)).

(** Round-to-nearest-even of an exact value onto the binary64 grid:
    significands of 53 bits, and multiples of [2 ^ -1074] below the normal
    range.  A value that rounds beyond the largest float comes out as
    [2 ^ 1024] or more. *)
Definition round_binary64 (q : Q) : Q :=
  if Qeq_bool q 0 then 0
  else
    let a := Qabs q in
    let e0 := (Z.log2 (Qnum a) - Z.log2 (Zpos (Qden a)) - 53)%Z in
    let e1 := if Qle_bool (inject_Z (2 ^ 53)) (a / pow2 e0) then (e0 + 1)%Z else e0 in
    let e := Z.max e1 (- 1074) in
    Qred (inject_Z (round_half_even (q / pow2 e)) * pow2 e).

Definition string_of_nat (n : nat) : string :=
  NilEmpty.string_of_uint (Nat.to_uint n).

Definition string_of_N (n : N) : string :=
  NilEmpty.string_of_uint (N.to_uint n).

Definition digit (n : nat) : ascii := ascii_of_nat (48 + n).

Definition two_digits (n : nat) : string :=
  String (digit (n / 10)) (String (digit (n mod 10)) EmptyString).

(** [f'{x:.2f}']: a minus sign when the sign bit is set (also before digits
    that are all zero), then [inf] for an infinite [x], and otherwise the
    exact magnitude rounded to hundredths, ties to even. *)
Definition format_2f (x : Q) : string :=
  (if sign_bit x then "-" else "")
    ++ (if is_inf x then "inf"
        else
          let h := round_half_even (Qabs x * 100) in
          string_of_N (Z.to_N (h / 100))
            ++ "."
            ++ two_digits (Z.to_nat (h mod 100))).

(** Digits of the fractional part [n/d] of a number, until the remainder is
    zero or the fuel is spent. *)
Fixpoint frac_digits (fuel : nat) (n d : Z) : string :=
  match fuel with
  | O => EmptyString
  | S fuel' =>
      if (n =? 0)%Z then EmptyString
      else String (digit (Z.to_nat (10 * n / d)))
                  (frac_digits fuel' ((10 * n) mod d)%Z d)
  end.

(** An instance for the text of a float in a label: the exact decimal
    expansion, cut after 17 digits.  It is what [str] prints for the floats
    whose expansion is short (star ratings, halves, quarters), not for the
    others ([str] prints the shortest text that reads back to the float). *)
Definition str_float (x : Q) : string :=
  let a := Qabs x in
  let n := Qnum a in
  let d := Zpos (Qden a) in
  let f := frac_digits 17 (n mod d)%Z d in
  (if sign_bit x then "-" else "")
    ++ (if is_inf x then "inf"
        else
          string_of_N (Z.to_N (n / d))
            ++ "."
            ++ (if String.eqb f "" then "0" else f)).

(** ** Data frames *)

(** The sheet as the Excel engine returns it: rows of cells, top row first. *)
Definition sheet : Type := list (list value).

(** What [read_excel] returns: the header line and the data rows below it. *)
Record RawFrame : Type := mkRaw {
  header : list value;
  body : list (list value)
}.

(** A frame whose columns carry string labels. *)
Record DataFrame : Type := mkFrame {
  columns : list string;
  rows : list (list value)
}.

Definition record : Type := list (string * value).

Fixpoint index_of (name : string) (cols : list string) : option nat :=
  match cols with
  | [] => None
  | c :: cols' =>
      if String.eqb c name then Some O
      else option_map S (index_of name cols')
  end.

Definition mem (name : string) (names : list string) : bool :=
  existsb (String.eqb name) names.

(** The cell of one row under the column labelled [name]. *)
Definition cell (cols : list string) (name : string) (row : list value) : value :=
  match index_of name cols with
  | Some i => nth i row NaN
  | None => NaN
  end.

(** [df[name]] as a list of cells. *)
Definition getcol (df : DataFrame) (name : string) : list value :=
  map (cell (columns df) name) (rows df).

(** [df[names]] seen row by row. *)
Definition getcols (df : DataFrame) (names : list string) : list (list value) :=
  map (fun row => map (fun name => cell (columns df) name row) names) (rows df).

(** One more cell at the end of each row. *)
Fixpoint append_cells (rs : list (list value)) (series : list value) : list (list value) :=
  match rs, series with
  | r :: rs', v :: series' => (r ++ [v]) :: append_cells rs' series'
  | _, _ => []
  end.

(** [df[name] = series] for a label the frame does not have yet: a new last
    column. *)
Definition set_column (df : DataFrame) (name : string) (series : list value) : DataFrame :=
  mkFrame (columns df ++ [name]) (append_cells (rows df) series).

(** [df.to_dict('records')]. *)
Definition to_dict_records (df : DataFrame) : list record :=
  map (fun row => combine (columns df) row) (rows df).

(** The value a record holds under a key. *)
Fixpoint field (name : string) (r : record) : option value :=
  match r with
  | [] => None
  | (k, v) :: r' => if String.eqb k name then Some v else field name r'
  end.

(** [df.iloc[:, idxs]]: every index must be below the number of columns. *)
Definition iloc_columns (df : RawFrame) (idxs : list nat) : result RawFrame :=
  let ncols := List.length (header df) in
  if forallb (fun i => Nat.ltb i ncols) idxs then
    Ok (mkRaw (map (fun i => nth i (header df) NaN) idxs)
              (map (fun row => map (fun i => nth i row NaN) idxs) (body df)))
  else Raise IndexError.

(** [df.columns = labels]: as many labels as the frame has columns. *)
Definition set_columns (df : RawFrame) (labels : list string) : result DataFrame :=
  if Nat.eqb (List.length (header df)) (List.length labels) then Ok (mkFrame labels (body df))
  else Raise ValueError_length_mismatch.

(** ** Sorting and counting *)

Fixpoint insert_by {A : Type} (leb : A -> A -> bool) (x : A) (l : list A) : list A :=
  match l with
  | [] => [x]
  | y :: l' => if leb x y then x :: y :: l' else y :: insert_by leb x l'
  end.

Fixpoint sort_by {A : Type} (leb : A -> A -> bool) (l : list A) : list A :=
  match l with
  | [] => []
  | x :: l' => insert_by leb x (sort_by leb l')
  end.

(** One more occurrence of [q] in a tally kept in order of first occurrence. *)
Fixpoint tally_add (q : Q) (acc : list (Q * nat)) : list (Q * nat) :=
  match acc with
  | [] => [(q, 1%nat)]
  | (k, n) :: acc' =>
      if Qeq_bool k q then (k, S n) :: acc'
      else (k, n) :: tally_add q acc'
  end.

Definition tally (l : list value) : list (Q * nat) :=
  fold_left (fun acc v => match v with
                          | Num q => tally_add q acc
                          | _ => acc
                          end) l [].

(** [Series.value_counts()]: missing values dropped, one entry per distinct
    value, most frequent first. *)
Definition value_counts (l : list value) : list (Q * nat) :=
  sort_by (fun a b => Nat.leb (snd b) (snd a)) (tally l).

(** [Series.sort_index()] on such a result: ascending by value. *)
Definition sort_index (l : list (Q * nat)) : list (Q * nat) :=
  sort_by (fun a b => Qle_bool (fst a) (fst b)) l.

(** The running maximum of a row: a cell that is not a number leaves it as
    it is. *)
Definition max_step (acc v : value) : value :=
  match v with
  | Num q =>
      match acc with
      | Num m => match (m ?= q)%Q with
                 | Lt => Num q
                 | _ => Num m
                 end
      | _ => Num q
      end
  | _ => acc
  end.

(** [numpy.max] on a row of a frame, which pandas evaluates as
    [Series.max()]: missing values are skipped, and the result is missing
    when no number is left. *)
Definition nanmax (l : list value) : value := fold_left max_step l NaN.

(** ** What the callback returns *)

(** [dash_table.DataTable]: its columns, its data and its page size (the
    style arguments are constants and left out). *)
Record DataTable : Type := mkTable {
  dt_columns : list (string * string);   (* 'name', 'id' *)
  dt_data : list record;
  dt_page_size : nat
}.

Inductive html : Type :=
| Div (children : list string)
| Table (t : DataTable).

Record bar_trace : Type := mkBar {
  bar_x : list value;
  bar_y : list value;
  bar_type : string;
  bar_name : string
}.

Record pie_trace : Type := mkPie {
  pie_labels : list string;
  pie_values : list nat;
  pie_type : string
}.

(** A figure dictionary: [{}], or the ['data'] list and the layout title
    (colours and margins are constants and left out). *)
Inductive figure : Type :=
| EmptyDict
| BarFigure (data : list bar_trace) (title : string)
| PieFigure (data : list pie_trace) (title : string).

Definition output : Type := (html * figure * figure)%type.

(** Lines 51-59. *)
Definition column_names : list string :=
  [ "Index"; "Roll no"; "Names";
    "WEEK1"; "1";
    "WEEK2"; "2";
    "WEEK3"; "3";
    "WEEK4"; "4";
    "WEEK5"; "5";
    "WEEK6"; "6" ].

(** Line 69. *)
Definition numeric_columns : list string := ["1"; "2"; "3"; "4"; "5"; "6"].

(** Lines 245-246. *)
Definition columns_to_keep_page1 : list nat :=
  [0; 1; 2; 6; 13; 16; 23; 26; 33; 36; 43; 46; 53; 56; 63]%nat.
Definition columns_to_keep_page2 : list nat :=
  [0; 1; 2; 6; 15; 18; 27; 30; 39; 42; 51; 54; 63; 66; 75]%nat.

Section ReportBuilder.

(** The Excel engine: the cells of the first sheet of a workbook, or
    nothing when the bytes are not a readable workbook. *)
Variable read_workbook : list byte -> option sheet.

(** The number a text denotes for [pandas.to_numeric], if any. *)
Variable parse_number : string -> option Q.

(** Rounding of an exact magnitude to the nearest binary64 value (a
    magnitude of [2 ^ 1024] or more when the result is beyond the largest
    float). *)
Variable fround : Q -> Q.

(** [str] of a number, as the f-string of a label prints it. *)
Variable show_num : Q -> string.

(** [pd.read_excel(io.BytesIO(decoded), skiprows=n)] with its default
    [header=0]: [n] lines are skipped, the next line names the columns,
    the lines below it are the data.  When nothing is left the frame is
    empty and has no columns. *)
Definition read_excel (decoded : list byte) (skiprows : nat) : result RawFrame :=
  match read_workbook decoded with
  | None => Raise ExcelReadError
  | Some sh =>
      match skipn skiprows sh with
      | [] => Ok (mkRaw [] [])
      | h :: data => Ok (mkRaw h data)
      end
  end.

(** Lines 46-60. *)
Definition read_excel_contents (contents : string) (columns_to_keep : list nat)
  : result DataFrame :=
  match str_split comma contents with
  | [content_type; content_string] =>
      decoded <- b64decode content_string ;;
      df <- read_excel decoded 8 ;;
      df <- iloc_columns df columns_to_keep ;;
      set_columns df column_names
  | _ => Raise ValueError_unpack
  end.

(** [pd.to_numeric(..., errors='coerce')] on one cell. *)
Definition to_numeric (v : value) : value :=
  match v with
  | Num q => Num q
  | Str s => match parse_number s with
             | Some q => Num q
             | None => NaN
             end
  | NaN => NaN
  end.

(** Line 70: the cells of the columns in [names] are coerced, the other
    columns are left as they are. *)
Definition coerce_columns (df : DataFrame) (names : list string) : DataFrame :=
  mkFrame (columns df)
    (map (fun row =>
            map (fun cv => if mem (fst cv) names then to_numeric (snd cv) else snd cv)
                (combine (columns df) row))
         (rows df)).

(** Line 73. *)
Definition highest_star (df : DataFrame) : list value :=
  map nanmax (getcols df numeric_columns).

(** A float operation with a positive constant, given by what it does
    exactly on magnitudes: the result has the sign bit of the argument; an
    infinite argument gives an infinity; a finite one gives the rounded
    exact result, zero when that underflows and an infinity when it is
    beyond the largest float. *)
Definition float_op (exact : Q -> Q) (x : Q) : Q :=
  with_sign (sign_bit x)
    (if is_inf x then float_inf
     else
       let m := Qabs (fround (exact (Qabs x))) in
       if is_inf m then float_inf else m).

(** Float division and multiplication of a cell by a positive constant. *)
Definition div_scalar (v : value) (c : Q) : value :=
  match v with
  | Num x => Num (float_op (fun m => m / c) x)
  | _ => NaN
  end.

Definition mul_scalar (v : value) (c : Q) : value :=
  match v with
  | Num x => Num (float_op (fun m => m * c) x)
  | _ => NaN
  end.

(** The lambda of line 76. *)
Definition percent_text (x : value) : value :=
  match x with
  | Num p => Str (format_2f p ++ "%")
  | _ => Str ""
  end.

(** Line 76. *)
Definition percentage (hs : value) : value :=
  percent_text (mul_scalar (div_scalar hs 5) 100).

(** Lines 94-102: one trace per week. *)
Definition week_trace (df : DataFrame) (col name : string) : bar_trace :=
  mkBar (skipn 2 (getcol df "Names")) (skipn 2 (getcol df col)) "bar" name.

Definition label_of (item : Q * nat) : string :=
  string_of_nat (snd item) ++ " students = " ++ show_num (fst item) ++ " stars".

(** Lines 62-132. *)
Definition update_output (contents : option string) (columns_to_keep : list nat)
  : result output :=
  match contents with
  | None => Ok (Div [""], EmptyDict, EmptyDict)
  | Some contents =>
      df <- read_excel_contents contents columns_to_keep ;;
      let df := coerce_columns df numeric_columns in
      let df := set_column df "Highest_Star" (highest_star df) in
      let df := set_column df "Percentage"
                  (map percentage (getcol df "Highest_Star")) in
      let table :=
        Table (mkTable (map (fun col => (col, col)) (columns df))
                       (to_dict_records df)
                       (List.length (rows df))) in
      let bar_graph :=
        BarFigure
          [ week_trace df "1" "Week 1";
            week_trace df "2" "Week 2";
            week_trace df "3" "Week 3";
            week_trace df "4" "Week 4";
            week_trace df "5" "Week 5";
            week_trace df "6" "Week 6" ]
          "Bar Graph: stars for Weeks 1 to 6" in
      let star_count_pie_chart :=
        PieFigure
          [ mkPie (map label_of (sort_index (value_counts (getcol df "Highest_Star"))))
                  (map snd (sort_index (value_counts (getcol df "Highest_Star"))))
                  "pie" ]
          "Pie Chart: Count of Students by Star Ratings" in
      Ok (table, bar_graph, star_count_pie_chart)
  end.

End ReportBuilder.

(** Lines 244-256: each upload is built with its own template; a missing
    upload or a missing tab value gives the placeholder. *)
Definition update_tab_contents
    (read_workbook : list byte -> option sheet) (parse_number : string -> option Q)
    (fround : Q -> Q) (show_num : Q -> string)
    (contents_page1 contents_page2 active_tab : option string)
  : result (output * output) :=
  let one contents columns_to_keep :=
    match contents, active_tab with
    | Some _, Some _ =>
        update_output read_workbook parse_number fround show_num contents columns_to_keep
    | _, _ => Ok (Div [""], EmptyDict, EmptyDict)
    end in
  o1 <- one contents_page1 columns_to_keep_page1 ;;
  o2 <- one contents_page2 columns_to_keep_page2 ;;
  Ok (o1, o2).

(** ** Vocabulary of the properties *)

(** Lines 47-48 on their own: the bytes the upload string carries. *)
Definition transport_decode (contents : string) : result (list byte) :=
  match str_split comma contents with
  | [content_type; content_string] => b64decode content_string
  | _ => Raise ValueError_unpack
  end.

(** The value of a record under a key, missing when the key is absent. *)
Definition field_or_nan (name : string) (r : record) : value :=
  match field name r with
  | Some v => v
  | None => NaN
  end.

(** The six week fields of a record. *)
Definition week_fields (r : record) : list value :=
  map (fun name => field_or_nan name r) numeric_columns.

(** The week fields of a record other than [name]. *)
Definition other_week_fields (name : string) (r : record) : list value :=
  map (fun n => field_or_nan n r)
      (filter (fun n => negb (String.eqb n name)) numeric_columns).

(** [hs] is the maximum of the numbers among [ws], and is missing when
    there is no number among them. *)
Definition max_of_defined (ws : list value) (hs : value) : Prop :=
  match hs with
  | Num m => In (Num m) ws /\ forall q, In (Num q) ws -> (q <= m)%Q
  | NaN => forall q, ~ In (Num q) ws
  | Str _ => False
  end.

Definition in_star_range (v : value) : Prop :=
  match v with
  | Num q => (0 <= q)%Q /\ (q <= 5)%Q
  | NaN => True
  | Str _ => False
  end.

(** How many cells of a column hold a number equal to [k]. *)
Definition count_num (k : Q) (col : list value) : nat :=
  List.length (filter (fun v => match v with
                                | Num q => Qeq_bool q k
                                | _ => false
                                end) col).

(** How many cells of a column hold a number. *)
Definition count_defined (col : list value) : nat :=
  List.length (filter (fun v => negb (is_nan v)) col).

(** Two entries of a tally stand for different numbers. *)
Definition other_key (a b : Q * nat) : Prop := ~ (fst a == fst b)%Q.

(** What a tally [acc] knows about the cells [p] it has seen. *)
Definition tally_inv (acc : list (Q * nat)) (p : list value) : Prop :=
  ForallOrdPairs other_key acc
  /\ (forall k n, In (k, n) acc -> n = count_num k p /\ (0 < n)%nat)
  /\ (forall q, In (Num q) p -> exists k n, In (k, n) acc /\ (k == q)%Q)
  /\ list_sum (map snd acc) = count_defined p.

Definition is_digit (c : ascii) : bool :=
  ((48 <=? N_of_ascii c) && (N_of_ascii c <=? 57))%N.

(** A text that ends with a point and two digits. *)
Definition two_decimals (s : string) : Prop :=
  exists pre d1 d2,
    s = (pre ++ "." ++ String d1 (String d2 EmptyString))%string
    /\ is_digit d1 = true /\ is_digit d2 = true.

Definition ends_with_percent (s : string) : Prop :=
  exists pre, s = (pre ++ "%")%string.

(** The cell of a sheet row that the template sends to the column [name]. *)
Definition source_cell (columns_to_keep : list nat) (name : string) (row : list value) : value :=
  match index_of name column_names with
  | Some j => nth (nth j columns_to_keep O) row NaN
  | None => NaN
  end.

(** ** A small workbook *)

(** A sheet row of 64 cells, given by the cells that are not empty. *)
Definition wide_row (cells : list (nat * value)) : list value :=
  map (fun i => match find (fun c => Nat.eqb (fst c) i) cells with
                | Some c => snd c
                | None => NaN
                end) (seq 0 64).

(** A data row laid out for [columns_to_keep_page1]. *)
Definition student_row (index : Q) (roll name : string) (w : list value) : list value :=
  wide_row [ (0, Num index); (1, Str roll); (2, Str name);
             (6, Str "W1"); (13, nth 0 w NaN);
             (16, Str "W2"); (23, nth 1 w NaN);
             (26, Str "W3"); (33, nth 2 w NaN);
             (36, Str "W4"); (43, nth 3 w NaN);
             (46, Str "W5"); (53, nth 4 w NaN);
             (56, Str "W6"); (63, nth 5 w NaN) ]%nat.

(** Eight title lines, the header line, two summary lines, three students. *)
Definition demo_sheet : sheet :=
  repeat (wide_row [(0%nat, Str "CCD")]) 8
  ++ [ wide_row [(0%nat, Str "Sr"); (1%nat, Str "Roll"); (2%nat, Str "Name")];
       student_row 0 "R0" "max" [Num 5; Num 5; Num 5; Num 5; Num 5; Num 5];
       student_row 0 "R0" "avg" [Num (5 # 2); NaN; NaN; NaN; NaN; NaN];
       student_row 1 "R1" "asha" [Num 1; Num 2; Str "absent"; NaN; Num 7; Num 0];
       student_row 2 "R2" "bala" [NaN; NaN; Str "-"; NaN; NaN; NaN];
       student_row 3 "R3" "chitra" [Num 3; Str "4"; NaN; NaN; NaN; Num (5 # 2)] ].

(** A sheet of ten lines: the title lines, the header line, one student. *)
Definition ten_line_sheet : sheet := firstn 10 demo_sheet.

(** A sheet whose lines have 63 cells, one short of what
    [columns_to_keep_page1] reaches. *)
Definition narrow_sheet : sheet := map (firstn 63) demo_sheet.

(** An engine that finds the given sheet in every workbook that is not
    empty. *)
Definition reader_of (sh : sheet) (decoded : list byte) : option sheet :=
  match decoded with
  | [] => None
  | _ => Some sh
  end.

Fixpoint digits_value (s : string) (acc : Z) : option Z :=
  match s with
  | EmptyString => Some acc
  | String c s' =>
      if is_digit c then digits_value s' (10 * acc + Z.of_N (N_of_ascii c) - 48)%Z
      else None
  end.

(** An instance for the parser: it accepts the unsigned decimal integers
    only ([pandas.to_numeric] accepts signs, fractions and exponents too). *)
Definition parse_digits (s : string) : option Q :=
  match s with
  | EmptyString => None
  | _ => option_map inject_Z (digits_value s 0%Z)
  end.


(** ** The build, line by line of a sheet *)

(** The cells of a sheet line that the template keeps (line 50). *)
Definition select_cells (columns_to_keep : list nat) (row : list value) : list value :=
  map (fun i => nth i row NaN) columns_to_keep.

Definition final_columns : list string :=
  (column_names ++ ["Highest_Star"]) ++ ["Percentage"].

Section RowByRow.

Variable parse_number : string -> option Q.
Variable fround : Q -> Q.
Variable show_num : Q -> string.

(** Line 70 on one row. *)
Definition coerced_row (columns_to_keep : list nat) (row : list value) : list value :=
  map (fun cv => if mem (fst cv) numeric_columns
                 then to_numeric parse_number (snd cv) else snd cv)
      (combine column_names (select_cells columns_to_keep row)).

(** Line 73 on one row. *)
Definition row_star (columns_to_keep : list nat) (row : list value) : value :=
  nanmax (map (fun name => cell column_names name (coerced_row columns_to_keep row))
              numeric_columns).

(** Lines 70-76 on one row. *)
Definition final_row (columns_to_keep : list nat) (row : list value) : list value :=
  (coerced_row columns_to_keep row ++ [row_star columns_to_keep row])
    ++ [percentage fround (row_star columns_to_keep row)].

Definition final_frame (columns_to_keep : list nat) (data : list (list value)) : DataFrame :=
  mkFrame final_columns (map (final_row columns_to_keep) data).

(** Lines 79-132: the three outputs of a finished frame. *)
Definition render (df : DataFrame) : output :=
  (Table (mkTable (map (fun col => (col, col)) (columns df))
                  (to_dict_records df)
                  (List.length (rows df))),
   BarFigure
     [ week_trace df "1" "Week 1";
       week_trace df "2" "Week 2";
       week_trace df "3" "Week 3";
       week_trace df "4" "Week 4";
       week_trace df "5" "Week 5";
       week_trace df "6" "Week 6" ]
     "Bar Graph: stars for Weeks 1 to 6",
   PieFigure
     [ mkPie (map (label_of show_num)
                  (sort_index (value_counts (getcol df "Highest_Star"))))
             (map snd (sort_index (value_counts (getcol df "Highest_Star"))))
             "pie" ]
     "Pie Chart: Count of Students by Star Ratings").

End RowByRow.

(** ** A build to look at *)

(** The report of [demo_sheet] under the first template. *)
Definition demo_output : result output :=
  update_output (reader_of demo_sheet) parse_digits round_binary64 str_float
    (Some "data:application/vnd.ms-excel;base64,UEsD") columns_to_keep_page1.

Definition demo_records : list record :=
  match demo_output with
  | Ok (Table tb, _, _) => dt_data tb
  | _ => []
  end.

Definition demo_record (i : nat) : record := nth i demo_records [].

(** A cell that [to_numeric] cannot turn into a number. *)
Definition unparsable (parse_number : string -> option Q) (v : value) : Prop :=
  match v with
  | Num _ => False
  | Str s => parse_number s = None
  | NaN => True
  end.

(** Lines 96-101: the frame column and the trace name of each week. *)
Definition weeks : list (string * string) :=
  [ ("1", "Week 1"); ("2", "Week 2"); ("3", "Week 3");
    ("4", "Week 4"); ("5", "Week 5"); ("6", "Week 6") ].

Definition demo_table : DataTable :=
  match demo_output with
  | Ok (Table tb, _, _) => tb
  | _ => mkTable [] [] 0
  end.

Definition demo_bar : figure :=
  match demo_output with
  | Ok (_, bar, _) => bar
  | _ => EmptyDict
  end.

Definition demo_pie : figure :=
  match demo_output with
  | Ok (_, _, pie) => pie
  | _ => EmptyDict
  end.

(** The frame of lines 46-60 for the same upload. *)
Definition demo_frame : DataFrame :=
  match read_excel_contents (reader_of demo_sheet)
          "data:application/vnd.ms-excel;base64,UEsD" columns_to_keep_page1 with
  | Ok df => df
  | Raise _ => mkFrame [] []
  end.

(** A sheet with one student whose first week holds [2 ^ 1023], a finite
    float. *)
Definition overflow_sheet : sheet :=
  firstn 9 demo_sheet
  ++ [student_row 1 "R1" "zoya" [Num (inject_Z (2 ^ 1023)); Num 1; NaN; NaN; NaN; NaN]].

Definition overflow_output : result output :=
  update_output (reader_of overflow_sheet) parse_digits round_binary64 str_float
    (Some "data:application/vnd.ms-excel;base64,UEsD") columns_to_keep_page1.

Definition overflow_table : DataTable :=
  match overflow_output with
  | Ok (Table tb, _, _) => tb
  | _ => mkTable [] [] 0
  end.

Definition overflow_record : record := nth 0 (dt_data overflow_table) [].

(** ** The pages and the login callbacks (lines 134-235) *)

(** A Dash component: its kind, its [id] if it has one, its properties that
    are not styling, and its children.  ([style] and [className] are
    constants and left out.) *)
#[local] Unset Elimination Schemes.
Inductive component : Type :=
| Text (s : string)
| Node (kind : string) (id : option string) (props : list (string * string))
       (children : list component).
#[local] Set Elimination Schemes.

(** Lines 134-151. *)
Definition app_layout : component :=
  Node "Div" None []
    [ Node "Container" (Some "main-content") []
        [ Node "H1" None [] [Text "Login to CCD Visualizer"];
          Node "Row" None []
            [ Node "Col" None [("width", "4")]
                [ Node "Label" None [] [Text "Username"];
                  Node "Input" (Some "username-input")
                    [("type", "text"); ("placeholder", "Enter username")] [];
                  Node "Label" None [] [Text "Password"];
                  Node "Input" (Some "password-input")
                    [("type", "password"); ("placeholder", "Enter password")] [];
                  Node "Button" (Some "login-button")
                    [("color", "primary"); ("n_clicks", "0")] [Text "Login"] ] ];
          Node "Div" None []
            [ Node "Button" (Some "forgot-password-button")
                [("color", "success")] [Text "Forgot Password"] ];
          Node "Div" (Some "login-output") [] [] ] ].

(** One tab of lines 165-218. *)
Definition upload_tab (label value page : string) : component :=
  Node "Tab" None [("label", label); ("value", value)]
    [ Node "Upload" (Some ("upload-data-" ++ page)%string) [("multiple", "False")]
        [ Node "Div" None []
            [ Node "B" None [] [Text "Drag and Drop or "];
              Node "A" None [] [Node "B" None [] [Text "Select a File"]] ] ];
      Node "Div" (Some ("output-data-upload-" ++ page)%string) [] [];
      Node "Graph" (Some ("bar-graph-" ++ page)%string) [] [];
      Node "Graph" (Some ("star-count-pie-chart-" ++ page)%string) [] [] ].

(** Lines 162-220. *)
Definition dashboard : component :=
  Node "Div" None []
    [ Node "H1" None [] [Text "Competitive Coding Development (CCD)"];
      Node "Tabs" (Some "tabs") [("value", "Page 1")]
        [ upload_tab "2N, 2R, 3R" "Page 1" "page1";
          upload_tab "4R" "Page 2" "page2" ] ].

(** Line 222. *)
Definition login_failed : component :=
  Node "Alert" None [("color", "danger"); ("dismissable", "True")]
    [Text "Login failed. Please check your credentials."].

(** [entered == "literal"] for an input value that is [None] while the box
    is empty. *)
Definition input_is (entered : option string) (literal : string) : bool :=
  match entered with
  | Some s => String.eqb s literal
  | None => false
  end.

(** Lines 159-223.  The login button is declared with [n_clicks=0], so the
    click count is an integer. *)
Definition handle_login (n_login_clicks : Z)
    (entered_username entered_password : option string) : component :=
  if (0 <? n_login_clicks)%Z then
    if input_is entered_username "mauli" && input_is entered_password "mauliccd"
    then dashboard
    else login_failed
  else app_layout.

(** Lines 230-233. *)
Definition contact_message : component :=
  Node "Div" None []
    [ Node "H4" None [] [Text "Contact Us"];
      Node "P" None []
        [Text "For password recovery, please contact us at juned44@gmail.com."] ].

(** Lines 228-235.  The button has no initial [n_clicks], so the count may
    be [None]. *)
Definition show_contact_message (n_clicks : option Z) : option component :=
  match n_clicks with
  | Some n => if (0 <? n)%Z then Some contact_message else None
  | None => None
  end.

(** ** Vocabulary of the further properties *)

(** How often a character occurs in a text. *)
Fixpoint count_char (c : ascii) (s : string) : nat :=
  match s with
  | EmptyString => O
  | String c' s' => (if Ascii.eqb c' c then 1 else 0) + count_char c s'
  end.

(** A character that can sit in a payload and that [b64decode] passes over:
    ASCII, not in the alphabet, not the pad character, and not the comma
    (at which line 47 splits the upload). *)
Definition is_junk (c : ascii) : bool :=
  (N_of_ascii c <? 128)%N
  && match b64_index c with
     | Some _ => false
     | None => true
     end
  && negb (Ascii.eqb c pad_char)
  && negb (Ascii.eqb c comma).

(** Reading back a text of the form that [format_2f] prints: an optional
    minus sign, digits, a point, two digits. *)
Definition parse_2f (s : string) : option Q :=
  let signed :=
    match s with
    | String c r => if Ascii.eqb c "-"%char then (true, r) else (false, s)
    | EmptyString => (false, s)
    end in
  match str_split "."%char (snd signed) with
  | [whole; hundredths] =>
      match digits_value whole 0%Z, digits_value hundredths 0%Z with
      | Some a, Some b =>
          if Nat.eqb (String.length hundredths) 2
          then Some ((if fst signed then - (1) else 1)
                     * (inject_Z a + inject_Z b / 100))%Q
          else None
      | _, _ => None
      end
  | _ => None
  end.

(** A sheet as an Excel engine returns it: every line padded to the width
    of the sheet. *)
Definition rectangular (width : nat) (sh : sheet) : Prop :=
  Forall (fun line => List.length line = width) sh.




(** [narrow_sheet], 63 cells wide, and the same sheet after a remark is typed
    into the 64th cell of its first title line, which makes the sheet, and
    so every line the engine returns, 64 cells wide. *)
Definition widened_sheet : sheet :=
  match narrow_sheet with
  | title :: lines => (title ++ [Str "remark"]) :: map (fun line => line ++ [NaN]) lines
  | [] => []
  end.

(** The traces of a bar figure. *)
Definition traces_of (f : figure) : list bar_trace :=
  match f with
  | BarFigure data _ => data
  | _ => []
  end.

(** The slices of a pie figure. *)
Definition slices_of (f : figure) : list pie_trace :=
  match f with
  | PieFigure data _ => data
  | _ => []
  end.

(** [demo_sheet] with twelve more empty cells in every line: 76 cells, as
    many as [columns_to_keep_page2] reaches. *)
Definition wider_sheet : sheet := map (fun line => line ++ repeat NaN 12) demo_sheet.

(** The report of [wider_sheet] under the second template. *)
Definition wider_output : output :=
  match update_output (reader_of wider_sheet) parse_digits round_binary64 str_float
          (Some "data:application/vnd.ms-excel;base64,UEsD") columns_to_keep_page2 with
  | Ok o => o
  | Raise _ => (Div [], EmptyDict, EmptyDict)
  end.

(** * Properties *)

(** ** Lists *)

Lemma skipn_S_tl {A : Type} (n : nat) (l : list A) :
  skipn (S n) l = tl (skipn n l).
Proof.
  revert l; induction n as [|n IH]; intros l.
  - destruct l; reflexivity.
  - destruct l as [|x l]; [reflexivity | ].
    change (skipn (S (S n)) (x :: l)) with (skipn (S n) l).
    change (skipn (S n) (x :: l)) with (skipn n l).
    apply IH.
Qed.

Lemma append_cells_map {A : Type} (f : A -> list value) (g : A -> value) (l : list A) :
  append_cells (map f l) (map g l) = map (fun x => f x ++ [g x]) l.
Proof.
  induction l as [|x l IH]; simpl; [reflexivity | now rewrite IH].
Qed.

Lemma forallb_ltb_false (idxs : list nat) (n : nat) :
  forallb (fun i => Nat.ltb i n) idxs = false <->
  exists i, In i idxs /\ (n <= i)%nat.
Proof.
  induction idxs as [|j idxs IH]; simpl.
  - split; [discriminate | intros (i & [] & _)].
  - rewrite andb_false_iff, IH, Nat.ltb_ge. split.
    + intros [H | (i & Hi & Hle)]; [exists j; auto | exists i; auto].
    + intros (i & [-> | Hi] & Hle); [now left | right; now exists i].
Qed.

(** ** The maximum of a row *)

Lemma max_step_choice (acc v : value) :
  max_step acc v = acc \/ max_step acc v = v.
Proof.
  destruct v as [q| |]; simpl; auto.
  destruct acc as [m| |]; auto.
  destruct (m ?= q)%Q; auto.
Qed.

Lemma max_step_ge_acc (m : Q) (v : value) :
  exists m', max_step (Num m) v = Num m' /\ (m <= m')%Q.
Proof.
  destruct v as [q| |]; simpl; try (exists m; split; [reflexivity | apply Qle_refl]).
  destruct (m ?= q)%Q eqn:E.
  - exists m; split; [reflexivity | apply Qle_refl].
  - exists q; split; [reflexivity | apply Qlt_le_weak; now apply Qlt_alt].
  - exists m; split; [reflexivity | apply Qle_refl].
Qed.

Lemma max_step_ge_new (acc : value) (q : Q) :
  exists m', max_step acc (Num q) = Num m' /\ (q <= m')%Q.
Proof.
  destruct acc as [m| |]; simpl; try (exists q; split; [reflexivity | apply Qle_refl]).
  destruct (m ?= q)%Q eqn:E.
  - exists m; split; [reflexivity | ]. apply Qeq_alt in E. rewrite E. apply Qle_refl.
  - exists q; split; [reflexivity | apply Qle_refl].
  - exists m; split; [reflexivity | ]. apply Qlt_le_weak. now apply Qgt_alt in E.
Qed.

Lemma max_step_not_str (acc v : value) :
  (forall s, acc <> Str s) -> forall s, max_step acc v <> Str s.
Proof.
  intros Hacc s. destruct v as [q| |]; simpl; try apply Hacc.
  destruct acc as [m| |]; try discriminate.
  destruct (m ?= q)%Q; discriminate.
Qed.

Lemma fold_max_spec (l : list value) :
  forall acc, (forall s, acc <> Str s) ->
    max_of_defined (acc :: l) (fold_left max_step l acc).
Proof.
  induction l as [|v l IH]; intros acc Hacc; simpl fold_left.
  - destruct acc as [m|s|]; simpl.
    + split; [now left | ]. intros q [E | []]. injection E as ->. apply Qle_refl.
    + now apply (Hacc s).
    + intros q [E | []]; discriminate.
  - specialize (IH (max_step acc v) (max_step_not_str acc v Hacc)).
    destruct (fold_left max_step l (max_step acc v)) as [m|s|]; simpl in *.
    + destruct IH as [Hin Hmax]. split.
      * destruct Hin as [E | Hin]; [ | now right; right].
        destruct (max_step_choice acc v) as [C | C]; rewrite C in E; auto.
      * intros q [E | [E | Hq]].
        -- subst acc. destruct (max_step_ge_acc q v) as (m' & E' & Hle).
           apply Qle_trans with m'; [exact Hle | apply Hmax; now left].
        -- subst v. destruct (max_step_ge_new acc q) as (m' & E' & Hle).
           apply Qle_trans with m'; [exact Hle | apply Hmax; now left].
        -- apply Hmax; now right.
    + exact IH.
    + intros q [E | [E | Hq]].
      * subst acc. destruct (max_step_ge_acc q v) as (m' & E' & _).
        apply (IH m'); now left.
      * subst v. destruct (max_step_ge_new acc q) as (m' & E' & _).
        apply (IH m'); now left.
      * apply (IH q); now right.
Qed.

(** [nanmax] returns the maximum of the numbers of a row, and the missing
    value when the row has no number. *)
Lemma nanmax_spec (l : list value) : max_of_defined l (nanmax l).
Proof.
  unfold nanmax.
  pose proof (fold_max_spec l NaN) as H.
  assert (Hn : forall s, NaN <> Str s) by discriminate.
  specialize (H Hn).
  destruct (fold_left max_step l NaN) as [m|s|]; simpl in *.
  - destruct H as [[E | Hin] Hmax]; [discriminate | ].
    split; [exact Hin | intros q Hq; apply Hmax; now right].
  - exact H.
  - intros q Hq. apply (H q). now right.
Qed.

Lemma max_of_defined_same_numbers (l l' : list value) (hs : value) :
  (forall q, In (Num q) l <-> In (Num q) l') ->
  max_of_defined l hs -> max_of_defined l' hs.
Proof.
  intros Heq. destruct hs as [m|s|]; simpl.
  - intros [Hin Hmax]. split; [now apply Heq | intros q Hq; apply Hmax; now apply Heq].
  - auto.
  - intros H q Hq. apply (H q). now apply Heq.
Qed.

(** ** Sorting *)

Section Sorting.

Context {A : Type} (leb : A -> A -> bool).

Lemma insert_by_perm (x : A) (l : list A) :
  Permutation (insert_by leb x l) (x :: l).
Proof.
  induction l as [|y l IH]; simpl; [apply Permutation_refl | ].
  destruct (leb x y); [apply Permutation_refl | ].
  eapply perm_trans; [apply perm_skip, IH | apply perm_swap].
Qed.

Lemma sort_by_perm (l : list A) : Permutation (sort_by leb l) l.
Proof.
  induction l as [|x l IH]; simpl; [constructor | ].
  eapply perm_trans; [apply insert_by_perm | now apply perm_skip].
Qed.

Lemma sort_by_in (l : list A) (x : A) : In x (sort_by leb l) <-> In x l.
Proof.
  split; apply Permutation_in;
    [apply sort_by_perm | apply Permutation_sym, sort_by_perm].
Qed.

Lemma sort_by_Forall (P : A -> Prop) (l : list A) :
  Forall P l -> Forall P (sort_by leb l).
Proof.
  apply Permutation_Forall, Permutation_sym, sort_by_perm.
Qed.

(** Pairwise properties that do not depend on the order of the pair
    survive sorting. *)
Lemma insert_by_pairwise (R : A -> A -> Prop) (x : A) (l : list A) :
  (forall a b, R a b -> R b a) ->
  Forall (R x) l -> ForallOrdPairs R l -> ForallOrdPairs R (insert_by leb x l).
Proof.
  intros Hsym. induction l as [|y l IH]; simpl; intros Hx Hl.
  - constructor; [constructor | constructor].
  - destruct (leb x y).
    + now constructor.
    + inversion Hx as [|? ? Hxy Hxl]; subst.
      inversion Hl as [|? ? Hyl Hl']; subst.
      constructor.
      * apply (Permutation_Forall (Permutation_sym (insert_by_perm x l))).
        constructor; [now apply Hsym | exact Hyl].
      * now apply IH.
Qed.

Lemma sort_by_pairwise (R : A -> A -> Prop) (l : list A) :
  (forall a b, R a b -> R b a) ->
  ForallOrdPairs R l -> ForallOrdPairs R (sort_by leb l).
Proof.
  intros Hsym. induction l as [|x l IH]; simpl; intros Hl; [constructor | ].
  inversion Hl as [|? ? Hx Hl']; subst.
  apply insert_by_pairwise; [exact Hsym | now apply sort_by_Forall | now apply IH].
Qed.

Hypothesis leb_total : forall a b, leb a b = false -> leb b a = true.
Hypothesis leb_trans : forall a b c, leb a b = true -> leb b c = true -> leb a c = true.

Lemma insert_by_sorted (x : A) (l : list A) :
  StronglySorted (fun a b => leb a b = true) l ->
  StronglySorted (fun a b => leb a b = true) (insert_by leb x l).
Proof.
  induction l as [|y l IH]; simpl; intros Hl.
  - constructor; constructor.
  - inversion Hl as [|? ? Hl' Hy]; subst.
    destruct (leb x y) eqn:E.
    + constructor; [exact Hl | ].
      constructor; [exact E | ].
      eapply Forall_impl; [ | exact Hy]. intros z Hz. now apply leb_trans with y.
    + constructor; [now apply IH | ].
      apply (Permutation_Forall (Permutation_sym (insert_by_perm x l))).
      constructor; [now apply leb_total | exact Hy].
Qed.

Lemma sort_by_sorted (l : list A) :
  StronglySorted (fun a b => leb a b = true) (sort_by leb l).
Proof.
  induction l as [|x l IH]; simpl; [constructor | now apply insert_by_sorted].
Qed.

End Sorting.

Lemma list_sum_perm (l l' : list nat) :
  Permutation l l' -> list_sum l = list_sum l'.
Proof.
  induction 1; simpl; lia.
Qed.

(** ** Counting the values of a column *)

Lemma other_key_sym (a b : Q * nat) : other_key a b -> other_key b a.
Proof.
  unfold other_key. intros H E. apply H. now symmetry.
Qed.

Lemma tally_add_keys (q : Q) (acc : list (Q * nat)) (k : Q) (n : nat) :
  In (k, n) (tally_add q acc) -> k = q \/ exists n', In (k, n') acc.
Proof.
  induction acc as [|[k0 n0] acc IH]; simpl.
  - intros [E | []]. left. congruence.
  - destruct (Qeq_bool k0 q).
    + intros [E | H]; right.
      * injection E as <- _. exists n0. now left.
      * exists n. now right.
    + intros [E | H].
      * right. exists n. now left.
      * destruct (IH H) as [-> | (n' & Hn')]; [now left | right; exists n'; now right].
Qed.

Lemma tally_add_distinct (q : Q) (acc : list (Q * nat)) :
  ForallOrdPairs other_key acc -> ForallOrdPairs other_key (tally_add q acc).
Proof.
  induction acc as [|[k0 n0] acc IH]; simpl; intros H.
  - constructor; constructor.
  - inversion H as [|? ? Hk Hacc]; subst.
    destruct (Qeq_bool k0 q) eqn:E.
    + constructor; [ | exact Hacc].
      eapply Forall_impl; [ | exact Hk]. intros b Hb. exact Hb.
    + constructor; [ | now apply IH].
      apply Forall_forall. intros [k n] Hin.
      destruct (tally_add_keys _ _ _ _ Hin) as [-> | (n' & Hn')].
      * unfold other_key; simpl. now apply Qeq_bool_neq.
      * rewrite Forall_forall in Hk. apply (Hk (k, n') Hn').
Qed.

Lemma tally_add_sum (q : Q) (acc : list (Q * nat)) :
  list_sum (map snd (tally_add q acc)) = S (list_sum (map snd acc)).
Proof.
  induction acc as [|[k0 n0] acc IH]; simpl; [reflexivity | ].
  destruct (Qeq_bool k0 q); simpl; [lia | rewrite IH; lia].
Qed.

Lemma tally_add_has (q : Q) (acc : list (Q * nat)) :
  exists k n, In (k, n) (tally_add q acc) /\ (k == q)%Q.
Proof.
  induction acc as [|[k0 n0] acc IH]; simpl.
  - exists q, 1%nat. split; [now left | reflexivity].
  - destruct (Qeq_bool k0 q) eqn:E.
    + exists k0, (S n0). split; [now left | now apply Qeq_bool_iff].
    + destruct IH as (k & n & Hin & Hk). exists k, n. split; [now right | exact Hk].
Qed.

Lemma tally_add_keeps (q : Q) (acc : list (Q * nat)) (k : Q) (n : nat) :
  In (k, n) acc -> exists n', In (k, n') (tally_add q acc).
Proof.
  induction acc as [|[k0 n0] acc IH]; simpl; [intros [] | ].
  intros [E | H].
  - injection E as -> ->. destruct (Qeq_bool k q).
    + exists (S n). now left.
    + exists n. now left.
  - destruct (Qeq_bool k0 q).
    + exists n. now right.
    + destruct (IH H) as (n' & Hn'). exists n'. now right.
Qed.

(** The count of an entry after one more occurrence of [q]. *)
Lemma tally_add_count (q : Q) (acc : list (Q * nat)) (k : Q) (n : nat) :
  ForallOrdPairs other_key acc ->
  In (k, n) (tally_add q acc) ->
  (In (k, n) acc /\ ~ (k == q)%Q)
  \/ ((k == q)%Q /\ exists n', n = S n' /\ In (k, n') acc)
  \/ ((k == q)%Q /\ n = 1%nat /\ forall k' n', In (k', n') acc -> ~ (k' == q)%Q).
Proof.
  induction acc as [|[k0 n0] acc IH]; simpl; intros Hd Hin.
  - destruct Hin as [E | []]. injection E as <- <-.
    right; right. split; [reflexivity | split; [reflexivity | intros ? ? []]].
  - inversion Hd as [|? ? Hk Hacc]; subst.
    rewrite Forall_forall in Hk.
    destruct (Qeq_bool k0 q) eqn:E.
    + apply Qeq_bool_iff in E. destruct Hin as [E' | Hin].
      * injection E' as <- <-. right; left.
        split; [exact E | ]. exists n0. split; [reflexivity | now left].
      * left. split; [now right | ].
        intros Hkq. apply (Hk (k, n) Hin). simpl. now rewrite E, Hkq.
    + apply Qeq_bool_neq in E. destruct Hin as [E' | Hin].
      * injection E' as <- <-. left. split; [now left | exact E].
      * destruct (IH Hacc Hin) as [[H1 H2] | [(H1 & n' & H2 & H3) | (H1 & H2 & H3)]].
        -- left. split; [now right | exact H2].
        -- right; left. split; [exact H1 | ]. exists n'. split; [exact H2 | now right].
        -- right; right. split; [exact H1 | split; [exact H2 | ]].
           intros k' n' [E' | H']; [injection E' as <- <-; exact E | now apply (H3 k' n')].
Qed.

Lemma count_num_snoc (k : Q) (p : list value) (v : value) :
  count_num k (p ++ [v]) =
  (count_num k p + match v with
                   | Num q => if Qeq_bool q k then 1 else 0
                   | _ => 0
                   end)%nat.
Proof.
  unfold count_num. rewrite filter_app, length_app. f_equal.
  destruct v as [q| |]; simpl; try reflexivity.
  destruct (Qeq_bool q k); reflexivity.
Qed.

Lemma count_defined_snoc (p : list value) (v : value) :
  count_defined (p ++ [v]) = (count_defined p + if is_nan v then 0 else 1)%nat.
Proof.
  unfold count_defined. rewrite filter_app, length_app. f_equal.
  destruct v; reflexivity.
Qed.

Lemma count_num_zero (k : Q) (p : list value) :
  (forall q, In (Num q) p -> ~ (q == k)%Q) -> count_num k p = 0%nat.
Proof.
  unfold count_num. induction p as [|v p IH]; simpl; intros H; [reflexivity | ].
  destruct v as [q| |]; try (apply IH; intros q' Hq'; apply H; now right).
  destruct (Qeq_bool q k) eqn:E.
  - exfalso. apply (H q); [now left | now apply Qeq_bool_iff].
  - apply IH. intros q' Hq'. apply H. now right.
Qed.

Lemma tally_step (acc : list (Q * nat)) (p : list value) (v : value) :
  tally_inv acc p ->
  tally_inv match v with
            | Num q => tally_add q acc
            | _ => acc
            end (p ++ [v]).
Proof.
  intros (Hd & Hc & Hk & Hs).
  assert (Hskip : forall w, (forall q, w <> Num q) -> tally_inv acc (p ++ [w])).
  { intros w Hw. repeat split.
    - exact Hd.
    - rewrite count_num_snoc. destruct (Hc k n H) as [-> _].
      destruct w as [q| |]; [now destruct (Hw q) | lia | lia].
    - now apply (Hc k n).
    - intros q Hq. apply in_app_or in Hq. destruct Hq as [Hq | [E | []]].
      + now apply Hk.
      + now destruct (Hw q).
    - rewrite count_defined_snoc, Hs.
      destruct w as [q| |]; [now destruct (Hw q) | simpl; lia | simpl; lia]. }
  destruct v as [q|s|]; [ | apply Hskip; discriminate | apply Hskip; discriminate].
  repeat split.
  - now apply tally_add_distinct.
  - rewrite count_num_snoc.
    destruct (tally_add_count q acc k n Hd H)
      as [[H1 H2] | [(H1 & n' & H2 & H3) | (H1 & H2 & H3)]].
    + destruct (Hc k n H1) as [-> _].
      destruct (Qeq_bool q k) eqn:E; [ | lia].
      apply Qeq_bool_iff in E. destruct H2. now symmetry.
    + destruct (Hc k n' H3) as [<- _]. subst n.
      destruct (Qeq_bool q k) eqn:E; [lia | ].
      apply Qeq_bool_neq in E. destruct E. now symmetry.
    + subst n. rewrite count_num_zero.
      * destruct (Qeq_bool q k) eqn:E; [reflexivity | ].
        apply Qeq_bool_neq in E. destruct E. now symmetry.
      * intros q' Hq' E. destruct (Hk q' Hq') as (k' & n' & Hin & Hk').
        apply (H3 k' n' Hin). now rewrite Hk', E.
  - destruct (tally_add_count q acc k n Hd H)
      as [[H1 H2] | [(H1 & n' & H2 & H3) | (H1 & H2 & H3)]].
    + now apply (Hc k n).
    + lia.
    + lia.
  - intros q' Hq'. apply in_app_or in Hq'. destruct Hq' as [Hq' | [E | []]].
    + destruct (Hk q' Hq') as (k & n & Hin & Hkq).
      destruct (tally_add_keeps q acc k n Hin) as (n' & Hn').
      now exists k, n'.
    + injection E as <-. apply tally_add_has.
  - rewrite tally_add_sum, count_defined_snoc, Hs. simpl. lia.
Qed.

Lemma tally_fold (l : list value) :
  forall acc p, tally_inv acc p ->
    tally_inv (fold_left (fun acc v => match v with
                                       | Num q => tally_add q acc
                                       | _ => acc
                                       end) l acc) (p ++ l).
Proof.
  induction l as [|v l IH]; intros acc p H; simpl.
  - now rewrite app_nil_r.
  - replace (p ++ v :: l) with ((p ++ [v]) ++ l) by (now rewrite <- app_assoc).
    apply IH. now apply tally_step.
Qed.

Lemma tally_spec (l : list value) : tally_inv (tally l) l.
Proof.
  apply (tally_fold l [] []). repeat split.
  - constructor.
  - destruct H.
  - destruct H.
  - intros q [].
Qed.

Lemma by_key_total (a b : Q * nat) :
  Qle_bool (fst a) (fst b) = false -> Qle_bool (fst b) (fst a) = true.
Proof.
  intros H. apply Qle_bool_iff. apply Qlt_le_weak, Qnot_le_lt.
  intros Hle. apply Qle_bool_iff in Hle. congruence.
Qed.

Lemma by_key_trans (a b c : Q * nat) :
  Qle_bool (fst a) (fst b) = true -> Qle_bool (fst b) (fst c) = true ->
  Qle_bool (fst a) (fst c) = true.
Proof.
  rewrite !Qle_bool_iff. apply Qle_trans.
Qed.

Lemma strictly_sorted (l : list (Q * nat)) :
  StronglySorted (fun a b => Qle_bool (fst a) (fst b) = true) l ->
  ForallOrdPairs other_key l ->
  StronglySorted (fun a b => (fst a < fst b)%Q) l.
Proof.
  induction l as [|a l IH]; intros Hs Hd; [constructor | ].
  inversion Hs as [|? ? Hs' Ha]; subst.
  inversion Hd as [|? ? Hk Hd']; subst.
  constructor; [now apply IH | ].
  rewrite Forall_forall in *. intros b Hb.
  specialize (Ha b Hb). specialize (Hk b Hb).
  apply Qle_bool_iff in Ha. apply Qle_lteq in Ha.
  destruct Ha as [Hlt | Heq]; [exact Hlt | now destruct Hk].
Qed.

(** The groups of [value_counts().sort_index()]: strictly ascending keys,
    each with the number of cells equal to it, one group for every number
    of the column, and counts that add up to the number of defined cells. *)
Lemma star_counts_spec (col : list value) :
  let g := sort_index (value_counts col) in
  StronglySorted (fun a b => (fst a < fst b)%Q) g
  /\ (forall k n, In (k, n) g -> n = count_num k col /\ (0 < n)%nat)
  /\ (forall q, In (Num q) col -> exists k n, In (k, n) g /\ (k == q)%Q)
  /\ list_sum (map snd g) = count_defined col.
Proof.
  intros g. destruct (tally_spec col) as (Hd & Hc & Hk & Hs).
  assert (Hin : forall x, In x g <-> In x (tally col)).
  { intros x. unfold g, sort_index, value_counts. now rewrite !sort_by_in. }
  repeat split.
  - apply strictly_sorted.
    + apply sort_by_sorted; [exact by_key_total | exact by_key_trans].
    + unfold g, sort_index, value_counts.
      apply sort_by_pairwise; [exact other_key_sym | ].
      apply sort_by_pairwise; [exact other_key_sym | exact Hd].
  - apply Hin in H. now apply (Hc k n).
  - apply Hin in H. now apply (Hc k n).
  - intros q Hq. destruct (Hk q Hq) as (k & n & Hkn & E).
    exists k, n. split; [now apply Hin | exact E].
  - rewrite <- Hs. apply list_sum_perm, Permutation_map.
    unfold g, sort_index, value_counts.
    eapply perm_trans; apply sort_by_perm.
Qed.

(** ** Numbers and their texts *)

Example format_2f_values :
  map format_2f [3; 1 # 3; 2 # 3; 1 # 8; 3 # 8; 140; - (1 # 1000)]%Q
  = ["3.00"; "0.33"; "0.67"; "0.12"; "0.38"; "140.00"; "-0.00"].
Proof. reflexivity. Qed.

(** [0.07 * 100] is [7.000000000000001] in binary64. *)
Example round_binary64_product :
  round_binary64 (round_binary64 (7 # 100) * 100)
  = (7881299347898369 # 1125899906842624)%Q.
Proof. vm_compute. reflexivity. Qed.

Example percentage_of_three :
  percentage round_binary64 (Num 3) = Str "60.00%".
Proof. vm_compute. reflexivity. Qed.

(** [2.0 ** 1023 / 5 * 100] overflows. *)
Example percentage_of_huge :
  percentage round_binary64 (Num (inject_Z (2 ^ 1023))) = Str "inf%".
Proof. vm_compute. reflexivity. Qed.

Example percentage_of_zeros :
  map (percentage round_binary64) [Num 0; Num neg_zero; Num (- (1 # 10000))]
  = [Str "0.00%"; Str "-0.00%"; Str "-0.00%"].
Proof. vm_compute. reflexivity. Qed.

(** The quotient of the least negative float underflows to the negative
    zero. *)
Example percentage_underflow :
  percentage round_binary64 (Num (- pow2 (- 1074))) = Str "-0.00%".
Proof. vm_compute. reflexivity. Qed.

Example percentage_of_infinity :
  map (percentage round_binary64) [Num float_inf; Num (- float_inf)]
  = [Str "inf%"; Str "-inf%"].
Proof. vm_compute. reflexivity. Qed.

Example nanmax_skips_missing : nanmax [Num 1; NaN; Num 5; Num 3] = Num 5.
Proof. reflexivity. Qed.

Example nanmax_all_missing : nanmax [NaN; NaN; NaN; NaN; NaN; NaN] = NaN.
Proof. reflexivity. Qed.

Example star_counts_of_column :
  sort_index (value_counts [Num 3; NaN; Num 1; Num 3; Num 5; Num 1; Num 3])
  = [(1, 2%nat); (3, 3%nat); (5, 1%nat)]%Q.
Proof. reflexivity. Qed.

(** ** Strings *)

Lemma str_split_prefix (p s : string) :
  contains comma p = false ->
  str_split comma (p ++ String comma s) = p :: str_split comma s.
Proof.
  induction p as [|c p IH]; simpl; intros H.
  - reflexivity.
  - apply orb_false_iff in H. destruct H as [Hc Hp].
    rewrite Hc, (IH Hp). reflexivity.
Qed.

Lemma append_assoc (a b c : string) : ((a ++ b) ++ c = a ++ b ++ c)%string.
Proof.
  induction a as [|x a IH]; simpl; [reflexivity | now rewrite IH].
Qed.

Lemma digit_is_digit (n : nat) : (n < 10)%nat -> is_digit (digit n) = true.
Proof.
  intros H. do 10 (destruct n as [|n]; [reflexivity | ]). lia.
Qed.

(** For a finite float [format_2f] prints a point followed by exactly two
    digits. *)
Lemma format_2f_two_decimals (x : Q) :
  is_inf x = false -> two_decimals (format_2f x).
Proof.
  intros Hfin. unfold format_2f, two_decimals. rewrite Hfin.
  set (h := round_half_even (Qabs x * 100)).
  exists ((if sign_bit x then "-" else "") ++ string_of_N (Z.to_N (h / 100)))%string,
         (digit (Z.to_nat (h mod 100) / 10)), (digit (Z.to_nat (h mod 100) mod 10)).
  assert (Hlt : (Z.to_nat (h mod 100) < 100)%nat).
  { pose proof (Z.mod_pos_bound h 100 eq_refl). lia. }
  split; [ | split].
  - now rewrite append_assoc.
  - apply digit_is_digit. apply Nat.Div0.div_lt_upper_bound. lia.
  - apply digit_is_digit. apply Nat.mod_upper_bound. lia.
Qed.

(** For an infinite float it prints [inf] after the sign. *)
Lemma format_2f_infinite (x : Q) :
  is_inf x = true -> format_2f x = "inf" \/ format_2f x = "-inf".
Proof.
  intros Hinf. unfold format_2f. rewrite Hinf.
  destruct (sign_bit x); [now right | now left].
Qed.

Lemma inf_text_has_no_decimals (sign : string) :
  sign = "" \/ sign = "-" -> ~ two_decimals (sign ++ "inf").
Proof.
  intros Hs (pre & d1 & d2 & E & _).
  destruct Hs as [-> | ->]; simpl in E.
  - destruct pre as [|a [|b [|c [|e pre]]]]; simpl in E; discriminate E.
  - destruct pre as [|a [|b [|c [|e [|f pre]]]]]; simpl in E; discriminate E.
Qed.

(** ** The lenient decoder *)

Example str_split_upload :
  str_split comma "data:application/vnd.ms-excel;base64,UEsD"
  = ["data:application/vnd.ms-excel;base64"; "UEsD"].
Proof. reflexivity. Qed.

Example b64decode_plain : b64decode "QUJD" = Ok [x41; x42; x43]%byte.
Proof. reflexivity. Qed.

Example b64decode_padded : b64decode "QUI=" = Ok [x41; x42]%byte.
Proof. reflexivity. Qed.

Example b64decode_skips_junk : b64decode "Q!U-J D" = Ok [x41; x42; x43]%byte.
Proof. reflexivity. Qed.

Example b64decode_short : b64decode "QUJ" = Raise binascii_Error.
Proof. reflexivity. Qed.

(** Without pad characters the decoder accepts a text exactly when the
    alphabet characters it holds, together with those of the quad under
    way, fill whole quads. *)
Lemma a2b_base64_unpadded (s : string) :
  contains pad_char s = false ->
  forall quad_pos leftchar pads out,
    (quad_pos < 4)%nat ->
    (exists decoded, a2b_base64 s quad_pos leftchar pads out = Ok decoded)
    <-> ((quad_pos + alphabet_count s) mod 4 = 0)%nat.
Proof.
  induction s as [|ch s IH]; intros Hpad quad_pos leftchar pads out Hq;
    cbn [a2b_base64 alphabet_count].
  - rewrite Nat.add_0_r, (Nat.mod_small quad_pos 4 Hq).
    destruct quad_pos as [|n]; simpl.
    + split; [reflexivity | intros _; now exists out].
    + split; [intros (d & Hd); discriminate | discriminate].
  - cbn [contains] in Hpad. apply orb_false_iff in Hpad. destruct Hpad as [Hc Hs].
    rewrite Hc. destruct (b64_index ch) as [v|].
    + destruct quad_pos as [|[|[|[|n]]]]; try lia.
      * rewrite (IH Hs 1%nat); [ | lia]. now rewrite Nat.add_succ_r.
      * rewrite (IH Hs 2%nat); [ | lia]. now rewrite Nat.add_succ_r.
      * rewrite (IH Hs 3%nat); [ | lia]. now rewrite Nat.add_succ_r.
      * rewrite (IH Hs 0%nat); [ | lia].
        replace (3 + S (alphabet_count s))%nat with (alphabet_count s + 1 * 4)%nat by lia.
        now rewrite Nat.Div0.mod_add.
    + now apply IH.
Qed.

Lemma a2b_base64_raises (s : string) :
  forall quad_pos leftchar pads out e,
    a2b_base64 s quad_pos leftchar pads out = Raise e -> e = binascii_Error.
Proof.
  induction s as [|ch s IH]; intros quad_pos leftchar pads out e; cbn [a2b_base64].
  - destruct (Nat.eqb quad_pos 0); [discriminate | congruence].
  - destruct (Ascii.eqb ch pad_char).
    + destruct (Nat.leb 2 quad_pos); [ | apply IH].
      destruct (Nat.leb 4 (quad_pos + S pads)); [discriminate | apply IH].
    + destruct (b64_index ch); [ | apply IH].
      destruct quad_pos as [|[|[|?]]]; apply IH.
Qed.

(** A character that is neither in the alphabet nor the pad character
    does not change what the decoder returns. *)
Lemma a2b_base64_discards (s1 s2 : string) (ch : ascii) :
  b64_index ch = None -> ch <> pad_char ->
  forall quad_pos leftchar pads out,
    a2b_base64 (s1 ++ String ch s2) quad_pos leftchar pads out
    = a2b_base64 (s1 ++ s2) quad_pos leftchar pads out.
Proof.
  intros Hidx Hpad. apply Ascii.eqb_neq in Hpad.
  induction s1 as [|x s1 IH]; intros quad_pos leftchar pads out;
    cbn [a2b_base64 append].
  - now rewrite Hpad, Hidx.
  - destruct (Ascii.eqb x pad_char).
    + destruct (Nat.leb 2 quad_pos); [ | apply IH].
      destruct (Nat.leb 4 (quad_pos + S pads)); [reflexivity | apply IH].
    + destruct (b64_index x); [ | apply IH].
      destruct quad_pos as [|[|[|?]]]; apply IH.
Qed.

(** [b64decode] on a payload of ASCII characters without pad characters: it
    fails exactly when the number of alphabet characters is not a multiple
    of four, whatever the other characters are. *)
Lemma b64decode_unpadded (s : string) :
  is_ascii_str s = true ->
  contains pad_char s = false ->
  b64decode s = Raise binascii_Error <-> (alphabet_count s mod 4 <> 0)%nat.
Proof.
  intros Ha Hp. unfold b64decode. rewrite Ha.
  pose proof (a2b_base64_unpadded s Hp 0%nat 0%N 0%nat [] ltac:(lia)) as H.
  simpl Nat.add in H.
  destruct (a2b_base64 s 0 0 0 []) as [d|e] eqn:E.
  - split; [discriminate | ]. intros Hn. destruct Hn. apply H. now exists d.
  - rewrite (a2b_base64_raises _ _ _ _ _ _ E). split; [ | reflexivity].
    intros _ Hz. apply H in Hz. destruct Hz as (d & Hd). discriminate.
Qed.

(** ** Float operations *)

Lemma float_inf_nonneg : (0 <= float_inf)%Q.
Proof.
  unfold float_inf. change 0%Q with (inject_Z 0). rewrite <- Zle_Qle.
  apply Z.pow_nonneg. lia.
Qed.

Lemma sign_bit_with_sign (negative : bool) (m : Q) :
  (0 <= m)%Q -> sign_bit (with_sign negative m) = negative.
Proof.
  intros Hm. unfold with_sign.
  destruct (Qeq_bool m 0) eqn:E.
  - destruct negative; reflexivity.
  - apply Qeq_bool_neq in E.
    assert (Hpos : (0 < Qnum m)%Z).
    { destruct m as [n d]. unfold Qle, Qeq in *. simpl in *. lia. }
    unfold sign_bit. destruct negative; simpl.
    + destruct (- Qnum m <? 0)%Z eqn:L; [reflexivity | ].
      apply Z.ltb_ge in L. lia.
    + destruct (Qnum m <? 0)%Z eqn:L; [apply Z.ltb_lt in L; lia | ].
      destruct (Qnum m =? 0)%Z eqn:Z0; [apply Z.eqb_eq in Z0; lia | reflexivity].
Qed.

(** Dividing or multiplying by a positive constant keeps the sign bit. *)
Lemma float_op_sign (fround exact : Q -> Q) (x : Q) :
  sign_bit (float_op fround exact x) = sign_bit x.
Proof.
  unfold float_op. apply sign_bit_with_sign.
  destruct (is_inf x); [apply float_inf_nonneg | ].
  cbv zeta. destruct (is_inf (Qabs (fround (exact (Qabs x)))));
    [apply float_inf_nonneg | apply Qabs_nonneg].
Qed.

(** ** The build as a whole *)

Section Properties.

Variable read_workbook : list byte -> option sheet.
Variable parse_number : string -> option Q.
Variable fround : Q -> Q.
Variable show_num : Q -> string.

Local Notation "'build'" := (update_output read_workbook parse_number fround show_num).
Local Notation "'finished'" := (final_frame parse_number fround).

(** When lines 46-60 succeed, the upload splits in two at its only comma,
    the payload decodes, the bytes are a workbook, the template has 15
    indices that the header line covers, and the frame holds the selected
    cells of the sheet lines below the header line. *)
Lemma read_excel_contents_ok (c : string) (t : list nat) (df : DataFrame) :
  read_excel_contents read_workbook c t = Ok df ->
  exists ct payload decoded sh,
    str_split comma c = [ct; payload]
    /\ b64decode payload = Ok decoded
    /\ read_workbook decoded = Some sh
    /\ List.length t = 15%nat
    /\ forallb (fun i => Nat.ltb i (List.length (hd [] (skipn 8 sh)))) t = true
    /\ df = mkFrame column_names (map (select_cells t) (skipn 9 sh)).
Proof.
  unfold read_excel_contents.
  destruct (str_split comma c) as [|ct [|payload [|x l]]]; try discriminate.
  destruct (b64decode payload) as [decoded|e] eqn:Hdec; try discriminate.
  simpl bind. unfold read_excel.
  destruct (read_workbook decoded) as [sh|] eqn:Hrd; try discriminate.
  intros H. exists ct, payload, decoded, sh.
  rewrite (skipn_S_tl 8 sh).
  destruct (skipn 8 sh) as [|h data]; simpl bind in H;
    unfold iloc_columns in H; simpl header in H; simpl body in H.
  - destruct t as [|i t]; simpl in H; discriminate.
  - simpl hd. simpl tl.
    destruct (forallb (fun i => Nat.ltb i (List.length h)) t) eqn:Hall;
      simpl bind in H; try discriminate.
    unfold set_columns in H. simpl header in H. simpl body in H.
    rewrite length_map in H.
    destruct (Nat.eqb (List.length t) (List.length column_names)) eqn:Hlen;
      try discriminate.
    apply Nat.eqb_eq in Hlen. injection H as <-.
    repeat split; assumption || reflexivity.
Qed.

(** Lines 70-76 act on each row on its own. *)
Lemma frame_pipeline (t : list nat) (data : list (list value)) :
  List.length t = 15%nat ->
  let df0 := mkFrame column_names (map (select_cells t) data) in
  let df1 := coerce_columns parse_number df0 numeric_columns in
  let df2 := set_column df1 "Highest_Star" (highest_star df1) in
  set_column df2 "Percentage" (map (percentage fround) (getcol df2 "Highest_Star"))
  = finished t data.
Proof.
  intros Hlen.
  do 15 (destruct t as [|? t]; [discriminate Hlen | ]).
  destruct t; [ | discriminate Hlen].
  unfold final_frame, set_column, coerce_columns, highest_star, getcol, getcols.
  cbn [columns rows]. f_equal.
  rewrite !map_map, append_cells_map, map_map, append_cells_map.
  apply map_ext. intros row. reflexivity.
Qed.

Lemma update_output_ok (c : string) (t : list nat) (out : output) :
  build (Some c) t = Ok out ->
  exists ct payload decoded sh,
    str_split comma c = [ct; payload]
    /\ b64decode payload = Ok decoded
    /\ read_workbook decoded = Some sh
    /\ List.length t = 15%nat
    /\ forallb (fun i => Nat.ltb i (List.length (hd [] (skipn 8 sh)))) t = true
    /\ out = render show_num (finished t (skipn 9 sh)).
Proof.
  unfold update_output.
  destruct (read_excel_contents read_workbook c t) as [df|e] eqn:Hread;
    simpl bind; [ | discriminate].
  destruct (read_excel_contents_ok c t df Hread)
    as (ct & payload & decoded & sh & Hs & Hd & Hr & Hl & Ha & ->).
  intros H. exists ct, payload, decoded, sh.
  repeat (split; [assumption | ]).
  injection H as <-.
  rewrite <- (frame_pipeline t (skipn 9 sh) Hl). reflexivity.
Qed.

(** ** The records of the table *)

Lemma cell_is_field (cols : list string) (name : string) :
  forall row, cell cols name row = field_or_nan name (combine cols row).
Proof.
  unfold cell, field_or_nan.
  induction cols as [|c cols IH]; intros row; simpl; [reflexivity | ].
  destruct row as [|v row]; simpl.
  - destruct (String.eqb c name); [reflexivity | ].
    destruct (index_of name cols); reflexivity.
  - destruct (String.eqb c name); [reflexivity | ].
    rewrite <- IH. destruct (index_of name cols); reflexivity.
Qed.

Lemma getcol_records (df : DataFrame) (name : string) :
  getcol df name = map (field_or_nan name) (to_dict_records df).
Proof.
  unfold getcol, to_dict_records. rewrite map_map.
  apply map_ext. intros row. apply cell_is_field.
Qed.

(** The record that a sheet line becomes. *)
Lemma final_record (t : list nat) (row : list value) :
  List.length t = 15%nat ->
  let r := combine final_columns (final_row parse_number fround t row) in
  map fst r = final_columns
  /\ (forall name, In name column_names ->
        field name r =
        Some (if mem name numeric_columns
              then to_numeric parse_number (source_cell t name row)
              else source_cell t name row))
  /\ field "Highest_Star" r = Some (nanmax (week_fields r))
  /\ field "Percentage" r = Some (percentage fround (nanmax (week_fields r))).
Proof.
  intros Hlen.
  do 15 (destruct t as [|? t]; [discriminate Hlen | ]).
  destruct t; [ | discriminate Hlen].
  repeat split.
  intros name Hin.
  repeat (destruct Hin as [<- | Hin]; [reflexivity | ]).
  destruct Hin.
Qed.

Lemma table_records (t : list nat) (data : list (list value)) :
  to_dict_records (finished t data)
  = map (fun row => combine final_columns (final_row parse_number fround t row)) data.
Proof.
  unfold to_dict_records, final_frame. cbn [columns rows].
  now rewrite map_map.
Qed.

(** Every record of a successful build comes from a line of the sheet
    below the header line, through [final_row]. *)
Lemma build_record (c : string) (t : list nat) (tb : DataTable) (bar pie : figure)
    (r : record) :
  build (Some c) t = Ok (Table tb, bar, pie) ->
  In r (dt_data tb) ->
  List.length t = 15%nat /\
  exists row, r = combine final_columns (final_row parse_number fround t row).
Proof.
  intros H Hin.
  destruct (update_output_ok c t _ H)
    as (ct & payload & decoded & sh & _ & _ & _ & Hl & _ & E).
  set (data := skipn 9 sh) in *.
  injection E as -> _ _. cbn [dt_data] in Hin.
  rewrite table_records in Hin. apply in_map_iff in Hin.
  destruct Hin as (row & <- & _). split; [exact Hl | now exists row].
Qed.

Lemma week_fields_final (t : list nat) (row : list value) :
  List.length t = 15%nat ->
  week_fields (combine final_columns (final_row parse_number fround t row))
  = map (fun name => to_numeric parse_number (source_cell t name row)) numeric_columns.
Proof.
  intros Hlen.
  do 15 (destruct t as [|? t]; [discriminate Hlen | ]).
  destruct t; [reflexivity | discriminate Hlen].
Qed.

Lemma to_numeric_not_str (v : value) (s : string) : to_numeric parse_number v <> Str s.
Proof.
  destruct v as [q|s'|]; simpl; try discriminate.
  destruct (parse_number s'); discriminate.
Qed.

(** ** Highest star and percentage *)

(** C1: in every record of a built table, [Highest_Star] is the maximum of
    the numbers among the six week fields ['1'] to ['6'] (each of which is
    a number or the missing value), and it is the missing value when none
    of the six is a number. *)
Theorem highest_star_is_row_max (c : string) (t : list nat) (tb : DataTable)
    (bar pie : figure) (r : record) :
  build (Some c) t = Ok (Table tb, bar, pie) ->
  In r (dt_data tb) ->
  exists hs,
    field "Highest_Star" r = Some hs
    /\ max_of_defined (week_fields r) hs
    /\ List.length (week_fields r) = 6%nat
    /\ Forall (fun w => forall s, w <> Str s) (week_fields r).
Proof.
  intros H Hin.
  destruct (build_record c t tb bar pie r H Hin) as (Hl & row & ->).
  destruct (final_record t row Hl) as (_ & _ & Hhs & _).
  exists (nanmax (week_fields (combine final_columns (final_row parse_number fround t row)))).
  split; [exact Hhs | ]. split; [apply nanmax_spec | ].
  rewrite (week_fields_final t row Hl). split; [reflexivity | ].
  apply Forall_forall. intros w Hw. apply in_map_iff in Hw.
  destruct Hw as (name & <- & _). apply to_numeric_not_str.
Qed.

(** C2, as amended: in every record of a built table, [Highest_Star] is
    the missing value or one of the record's own week values; so it lies
    in [0,5] whenever every number among the record's week fields does. *)
Theorem highest_star_within_week_range (c : string) (t : list nat) (tb : DataTable)
    (bar pie : figure) (r : record) :
  build (Some c) t = Ok (Table tb, bar, pie) ->
  In r (dt_data tb) ->
  (forall q, In (Num q) (week_fields r) -> (0 <= q)%Q /\ (q <= 5)%Q) ->
  exists hs,
    field "Highest_Star" r = Some hs
    /\ (hs = NaN \/ In hs (week_fields r))
    /\ in_star_range hs.
Proof.
  intros H Hin Hrange.
  destruct (build_record c t tb bar pie r H Hin) as (Hl & row & ->).
  destruct (final_record t row Hl) as (_ & _ & Hhs & _).
  set (r := combine final_columns (final_row parse_number fround t row)) in *.
  exists (nanmax (week_fields r)). split; [exact Hhs | ].
  pose proof (nanmax_spec (week_fields r)) as Hmax.
  destruct (nanmax (week_fields r)) as [m|s|]; simpl in Hmax.
  - destruct Hmax as [Hm _]. split; [now right | ]. now apply Hrange.
  - destruct Hmax.
  - split; [now left | exact I].
Qed.

(** C3, as amended: in every record of a built table, [Percentage] is the
    empty text when [Highest_Star] is missing, and otherwise the [.2f] text
    of the float [Highest_Star / 5 * 100] followed by ["%"].  That float
    has the sign bit of [Highest_Star]; its text has exactly two digits after
    the point when it is finite, and is [inf] or [-inf] when it is
    infinite.  So [Percentage] is empty or ends with ["%"]. *)
Theorem percentage_text (c : string) (t : list nat) (tb : DataTable)
    (bar pie : figure) (r : record) :
  build (Some c) t = Ok (Table tb, bar, pie) ->
  In r (dt_data tb) ->
  exists hs pct,
    field "Highest_Star" r = Some hs
    /\ field "Percentage" r = Some (Str pct)
    /\ match hs with
       | Num x =>
           exists p,
             mul_scalar fround (div_scalar fround (Num x) 5) 100 = Num p
             /\ pct = (format_2f p ++ "%")%string
             /\ sign_bit p = sign_bit x
             /\ (is_inf p = false -> two_decimals (format_2f p))
             /\ (is_inf p = true -> format_2f p = "inf" \/ format_2f p = "-inf")
       | _ => pct = EmptyString
       end
    /\ (pct = EmptyString \/ ends_with_percent pct).
Proof.
  intros H Hin.
  destruct (build_record c t tb bar pie r H Hin) as (Hl & row & ->).
  destruct (final_record t row Hl) as (_ & _ & Hhs & Hpct).
  set (r := combine final_columns (final_row parse_number fround t row)) in *.
  destruct (nanmax (week_fields r)) as [x|s|] eqn:E.
  - set (p := float_op fround (fun m => m * 100) (float_op fround (fun m => m / 5) x)).
    exists (Num x), (format_2f p ++ "%")%string.
    split; [exact Hhs | ]. split; [exact Hpct | ]. split.
    + exists p. split; [reflexivity | ]. split; [reflexivity | ].
      split; [unfold p; now rewrite !float_op_sign | ].
      split; [apply format_2f_two_decimals | apply format_2f_infinite].
    + right. now exists (format_2f p).
  - exists (Str s), EmptyString. repeat split; try assumption. now left.
  - exists NaN, EmptyString. repeat split; try assumption. now left.
Qed.

(** ** The two charts *)

Lemma transport_decode_ok (c ct payload : string) (decoded : list byte) :
  str_split comma c = [ct; payload] ->
  b64decode payload = Ok decoded ->
  transport_decode c = Ok decoded.
Proof.
  intros Hs Hd. unfold transport_decode. now rewrite Hs.
Qed.

(** C4: the pie chart of a build lists the groups of the records by
    [Highest_Star]: records without one are left out, the groups come in
    strictly ascending order of the star value, each is labelled
    ["<count> students = <star> stars"] and paired with its count, which
    is the number of records with that star value, and the counts add up
    to the number of records whose [Highest_Star] is defined. *)
Theorem star_counts_groups (c : string) (t : list nat) (tb : DataTable)
    (bar pie : figure) :
  build (Some c) t = Ok (Table tb, bar, pie) ->
  let stars := map (field_or_nan "Highest_Star") (dt_data tb) in
  exists groups : list (Q * nat),
    pie = PieFigure
            [ mkPie (map (fun g => (string_of_nat (snd g) ++ " students = "
                                      ++ show_num (fst g) ++ " stars")%string) groups)
                    (map snd groups)
                    "pie" ]
            "Pie Chart: Count of Students by Star Ratings"
    /\ StronglySorted (fun a b => (fst a < fst b)%Q) groups
    /\ (forall k n, In (k, n) groups -> n = count_num k stars /\ (0 < n)%nat)
    /\ (forall q, In (Num q) stars -> exists k n, In (k, n) groups /\ (k == q)%Q)
    /\ list_sum (map snd groups) = count_defined stars.
Proof.
  intros H stars.
  destruct (update_output_ok c t _ H)
    as (ct & payload & decoded & sh & _ & _ & _ & Hl & _ & E).
  set (data := skipn 9 sh) in *.
  injection E as -> _ ->. cbn [dt_data] in stars.
  exists (sort_index (value_counts stars)).
  split.
  - unfold stars. now rewrite <- getcol_records.
  - apply star_counts_spec.
Qed.

(** C5: the bar chart of a build has six traces, for the week fields ['1']
    to ['6'] in this order; each pairs the [Names] column without its first
    two entries with that week's column without its first two entries.  The
    table keeps every sheet line below the header line, in sheet order,
    the first two included. *)
Theorem weekly_series (c : string) (t : list nat) (tb : DataTable)
    (bar pie : figure) :
  build (Some c) t = Ok (Table tb, bar, pie) ->
  let col name := map (field_or_nan name) (dt_data tb) in
  bar = BarFigure
          (map (fun wk => mkBar (skipn 2 (col "Names")) (skipn 2 (col (fst wk)))
                                "bar" (snd wk)) weeks)
          "Bar Graph: stars for Weeks 1 to 6"
  /\ exists decoded sh,
       transport_decode c = Ok decoded
       /\ read_workbook decoded = Some sh
       /\ List.length (dt_data tb) = List.length (skipn 9 sh)
       /\ dt_page_size tb = List.length (skipn 9 sh)
       /\ forall name, In name column_names ->
            col name =
            map (fun row => if mem name numeric_columns
                            then to_numeric parse_number (source_cell t name row)
                            else source_cell t name row) (skipn 9 sh).
Proof.
  intros H col.
  destruct (update_output_ok c t _ H)
    as (ct & payload & decoded & sh & Hs & Hd & Hr & Hl & _ & E).
  set (data := skipn 9 sh) in *.
  injection E as -> -> _. cbn [dt_data dt_page_size] in *.
  split.
  - unfold col, weeks, week_trace. cbn [map fst snd].
    now rewrite <- !getcol_records.
  - exists decoded, sh.
    split; [now apply (transport_decode_ok c ct payload) | ].
    split; [exact Hr | ].
    split; [now rewrite table_records, length_map | ].
    split; [unfold final_frame; cbn [rows]; now rewrite length_map | ].
    intros name Hin. unfold col. rewrite table_records, map_map.
    apply map_ext. intros row.
    destruct (final_record t row Hl) as (_ & Hf & _).
    unfold field_or_nan. now rewrite (Hf name Hin).
Qed.

(** C6, as amended: the table of a build has one record for each sheet
    line that remains after the first 8 lines and the header line that
    follows them are taken away, and every record has the 15 fixed names
    in their fixed order, followed by [Highest_Star] and [Percentage]. *)
Theorem record_count_and_columns (c : string) (t : list nat) (tb : DataTable)
    (bar pie : figure) :
  build (Some c) t = Ok (Table tb, bar, pie) ->
  exists decoded sh,
    transport_decode c = Ok decoded
    /\ read_workbook decoded = Some sh
    /\ List.length (dt_data tb) = (List.length sh - 9)%nat
    /\ (forall r, In r (dt_data tb) ->
          map fst r = column_names ++ ["Highest_Star"; "Percentage"]
          /\ firstn 15 (map fst r) = column_names)
    /\ map fst (dt_columns tb) = column_names ++ ["Highest_Star"; "Percentage"].
Proof.
  intros H.
  assert (Hrec := fun r => build_record c t tb bar pie r H).
  destruct (update_output_ok c t _ H)
    as (ct & payload & decoded & sh & Hs & Hd & Hr & Hl & _ & E).
  remember (skipn 9 sh) as data eqn:Edata.
  injection E as -> _ _. cbn [dt_data dt_columns] in *.
  exists decoded, sh.
  split; [now apply (transport_decode_ok c ct payload) | ].
  split; [exact Hr | ].
  split; [now rewrite table_records, length_map, Edata, length_skipn | ].
  split; [ | reflexivity].
  intros r Hin. destruct (Hrec r Hin) as (_ & row & ->).
  destruct (final_record t row Hl) as (Hk & _). rewrite Hk. now split.
Qed.

(** ** Cells that are not numbers *)

Lemma unparsable_to_numeric (v : value) :
  unparsable parse_number v -> to_numeric parse_number v = NaN.
Proof.
  destruct v as [q|s|]; simpl; [intros [] | intros -> | ]; reflexivity.
Qed.

Lemma selected_cell (t : list nat) (name : string) (row : list value) :
  List.length t = 15%nat -> In name column_names ->
  cell column_names name (select_cells t row) = source_cell t name row.
Proof.
  intros Hlen Hin.
  do 15 (destruct t as [|? t]; [discriminate Hlen | ]).
  destruct t; [ | discriminate Hlen].
  repeat (destruct Hin as [<- | Hin]; [reflexivity | ]).
  destruct Hin.
Qed.

Lemma other_week_fields_numbers (name : string) (r : record) (q : Q) :
  field_or_nan name r = NaN ->
  In (Num q) (week_fields r) <-> In (Num q) (other_week_fields name r).
Proof.
  intros Hnan. unfold week_fields, other_week_fields.
  rewrite !in_map_iff. split; intros (n & E & Hn).
  - exists n. split; [exact E | ]. apply filter_In. split; [exact Hn | ].
    destruct (String.eqb n name) eqn:En; [ | reflexivity].
    apply String.eqb_eq in En. subst n. congruence.
  - exists n. split; [exact E | ]. now apply filter_In in Hn.
Qed.

(** C7: when lines 46-60 have produced a frame, the build succeeds
    whatever the week cells hold; a week cell that is not a number and
    does not parse as one is the missing value in its record, and the
    [Highest_Star] of that record is the maximum of the numbers among the
    other five week fields. *)
Theorem unparsable_week_cell (c : string) (t : list nat) (df : DataFrame) :
  read_excel_contents read_workbook c t = Ok df ->
  exists tb bar pie,
    build (Some c) t = Ok (Table tb, bar, pie)
    /\ List.length (dt_data tb) = List.length (rows df)
    /\ forall i row name,
         nth_error (rows df) i = Some row ->
         In name numeric_columns ->
         unparsable parse_number (cell (columns df) name row) ->
         exists r hs,
           nth_error (dt_data tb) i = Some r
           /\ field name r = Some NaN
           /\ field "Highest_Star" r = Some hs
           /\ max_of_defined (other_week_fields name r) hs.
Proof.
  intros Hread.
  destruct (read_excel_contents_ok c t df Hread)
    as (ct & payload & decoded & sh & Hs & Hd & Hr & Hl & Ha & ->).
  set (data := skipn 9 sh) in *.
  assert (Hb : build (Some c) t = Ok (render show_num (finished t data))).
  { unfold update_output. rewrite Hread. simpl bind.
    rewrite <- (frame_pipeline t data Hl). reflexivity. }
  eexists _, _, _. split; [exact Hb | ]. cbn [dt_data rows columns].
  split; [now rewrite table_records, !length_map | ].
  intros i row name Hrow Hname Hbad.
  rewrite nth_error_map in Hrow.
  destruct (nth_error data i) as [row0|] eqn:Hi; [ | discriminate].
  injection Hrow as <-.
  assert (Hcol : In name column_names).
  { repeat (destruct Hname as [<- | Hname]; [simpl; tauto | ]). destruct Hname. }
  assert (Hmem : mem name numeric_columns = true).
  { repeat (destruct Hname as [<- | Hname]; [reflexivity | ]). destruct Hname. }
  rewrite (selected_cell t name row0 Hl Hcol) in Hbad.
  destruct (final_record t row0 Hl) as (_ & Hf & Hhs & _).
  set (r := combine final_columns (final_row parse_number fround t row0)) in *.
  assert (Hfield : field name r = Some NaN).
  { rewrite (Hf name Hcol), Hmem. f_equal. now apply unparsable_to_numeric. }
  exists r, (nanmax (week_fields r)).
  split; [rewrite table_records, nth_error_map, Hi; reflexivity | ].
  split; [exact Hfield | ]. split; [exact Hhs | ].
  apply (max_of_defined_same_numbers (week_fields r)); [ | apply nanmax_spec].
  intros q. apply other_week_fields_numbers.
  unfold field_or_nan. now rewrite Hfield.
Qed.

(** ** Failures *)

Lemma transport_decode_kind (c : string) (e : exn) :
  transport_decode c = Raise e -> kind_of e = DecodeError.
Proof.
  unfold transport_decode.
  destruct (str_split comma c) as [|ct [|payload [|x l]]];
    try (intros E; injection E as <-; reflexivity).
  unfold b64decode. destruct (is_ascii_str payload).
  - intros E. now rewrite (a2b_base64_raises _ _ _ _ _ _ E).
  - intros E; injection E as <-; reflexivity.
Qed.

(** Lines 46-60, stage by stage. *)
Lemma read_excel_contents_stages (c : string) (t : list nat) :
  read_excel_contents read_workbook c t =
  match transport_decode c with
  | Raise e => Raise e
  | Ok decoded =>
      match read_workbook decoded with
      | None => Raise ExcelReadError
      | Some sh =>
          if forallb (fun i => Nat.ltb i (List.length (hd [] (skipn 8 sh)))) t then
            if Nat.eqb (List.length t) 15
            then Ok (mkFrame column_names (map (select_cells t) (skipn 9 sh)))
            else Raise ValueError_length_mismatch
          else Raise IndexError
      end
  end.
Proof.
  unfold read_excel_contents, transport_decode.
  destruct (str_split comma c) as [|ct [|payload [|x l]]]; try reflexivity.
  destruct (b64decode payload) as [decoded|e]; [ | reflexivity].
  simpl bind. unfold read_excel.
  destruct (read_workbook decoded) as [sh|]; [ | reflexivity].
  rewrite (skipn_S_tl 8 sh).
  destruct (skipn 8 sh) as [|h data]; simpl bind; unfold iloc_columns;
    cbn [header body hd tl List.length].
  - destruct t as [|i t]; reflexivity.
  - destruct (forallb (fun i => Nat.ltb i (List.length h)) t); [ | reflexivity].
    simpl bind. unfold set_columns. cbn [header body].
    rewrite length_map. reflexivity.
Qed.

Lemma build_raises (c : string) (t : list nat) (e : exn) :
  build (Some c) t = Raise e <-> read_excel_contents read_workbook c t = Raise e.
Proof.
  unfold update_output.
  destruct (read_excel_contents read_workbook c t); simpl bind;
    split; intros H; (discriminate H || (injection H as <-; reflexivity)).
Qed.

(** C8, as amended: a build fails with a decode error exactly when the
    upload string does not split in two at a single comma or
    [b64decode], which discards the characters outside the alphabet, rejects
    the payload; with a parse error exactly when the payload decodes and
    the bytes are not a readable workbook; with a schema error exactly when
    the bytes are a workbook and some template index is not below the
    number of cells of the header line (the ninth line; none when the
    sheet has at most 8 lines) or the template has not 15 indices.  A
    failed build returns no output, and a build that returns gives the
    table and both charts. *)
Theorem build_failures (c : string) (t : list nat) :
  ((exists e, build (Some c) t = Raise e /\ kind_of e = DecodeError)
     <-> exists e, transport_decode c = Raise e)
  /\ ((exists e, build (Some c) t = Raise e /\ kind_of e = ParseError)
     <-> exists decoded, transport_decode c = Ok decoded
                         /\ read_workbook decoded = None)
  /\ ((exists e, build (Some c) t = Raise e /\ kind_of e = SchemaError)
     <-> exists decoded sh,
           transport_decode c = Ok decoded
           /\ read_workbook decoded = Some sh
           /\ ((exists i, In i t /\ (List.length (hd [] (skipn 8 sh)) <= i)%nat)
               \/ List.length t <> 15%nat))
  /\ (forall e, build (Some c) t = Raise e -> forall out, build (Some c) t <> Ok out)
  /\ ((exists e, build (Some c) t = Raise e)
      \/ exists tb traces title slices title',
           build (Some c) t
           = Ok (Table tb, BarFigure traces title, PieFigure slices title')).
Proof.
  assert (Hok : forall df, read_excel_contents read_workbook c t = Ok df ->
                  exists tb traces title slices title',
                    build (Some c) t
                    = Ok (Table tb, BarFigure traces title, PieFigure slices title')).
  { intros df Hdf. unfold update_output. rewrite Hdf. simpl bind.
    eexists _, _, _, _, _. reflexivity. }
  assert (Hno : forall df, read_excel_contents read_workbook c t = Ok df ->
                  forall e, build (Some c) t <> Raise e).
  { intros df Hdf e He. apply build_raises in He. congruence. }
  pose proof (read_excel_contents_stages c t) as Hst.
  pose proof (transport_decode_kind c) as Hkind.
  destruct (transport_decode c) as [decoded|e0] eqn:Htd.
  2:{ assert (Hb : build (Some c) t = Raise e0) by now apply build_raises.
      specialize (Hkind e0 eq_refl).
      repeat split.
      - intros _. now exists e0.
      - intros _. now exists e0.
      - intros (e & He & Hk). rewrite Hb in He. injection He as <-. congruence.
      - intros (d & Hd & _). discriminate.
      - intros (e & He & Hk). rewrite Hb in He. injection He as <-. congruence.
      - intros (d & sh & Hd & _). discriminate.
      - intros e He out Ho. congruence.
      - left. now exists e0. }
  destruct (read_workbook decoded) as [sh|] eqn:Hrd.
  2:{ assert (Hb : build (Some c) t = Raise ExcelReadError) by now apply build_raises.
      repeat split.
      - intros (e & He & Hk). rewrite Hb in He. injection He as <-. discriminate.
      - intros (e & He). discriminate.
      - intros _. now exists decoded.
      - intros _. now exists ExcelReadError.
      - intros (e & He & Hk). rewrite Hb in He. injection He as <-. discriminate.
      - intros (d & sh & Hd & Hsh & _). injection Hd as <-. congruence.
      - intros e He out Ho. congruence.
      - left. now exists ExcelReadError. }
  assert (Hnd : ~ exists e, Ok decoded = @Raise (list byte) e)
    by (intros (e & He); discriminate).
  assert (Hnp : ~ exists d : list byte, Ok decoded = Ok d /\ read_workbook d = None).
  { intros (d & Hd & Hn). injection Hd as <-. congruence. }
  destruct (forallb (fun i => Nat.ltb i (List.length (hd [] (skipn 8 sh)))) t) eqn:Hall.
  2:{ assert (Hb : build (Some c) t = Raise IndexError) by now apply build_raises.
      apply forallb_ltb_false in Hall.
      repeat split.
      - intros (e & He & Hk). rewrite Hb in He. injection He as <-. discriminate.
      - intros H. now destruct Hnd.
      - intros (e & He & Hk). rewrite Hb in He. injection He as <-. discriminate.
      - intros H. now destruct Hnp.
      - intros _. exists decoded, sh. auto.
      - intros _. now exists IndexError.
      - intros e He out Ho. congruence.
      - left. now exists IndexError. }
  destruct (Nat.eqb (List.length t) 15) eqn:Hlen.
  2:{ assert (Hb : build (Some c) t = Raise ValueError_length_mismatch)
        by now apply build_raises.
      apply Nat.eqb_neq in Hlen.
      repeat split.
      - intros (e & He & Hk). rewrite Hb in He. injection He as <-. discriminate.
      - intros H. now destruct Hnd.
      - intros (e & He & Hk). rewrite Hb in He. injection He as <-. discriminate.
      - intros H. now destruct Hnp.
      - intros _. exists decoded, sh. auto.
      - intros _. now exists ValueError_length_mismatch.
      - intros e He out Ho. congruence.
      - left. now exists ValueError_length_mismatch. }
  apply Nat.eqb_eq in Hlen.
  assert (Hnone : forall e, build (Some c) t <> Raise e) by (eapply Hno; exact Hst).
  repeat split.
  - intros (e & He & _). now destruct (Hnone e).
  - intros H. now destruct Hnd.
  - intros (e & He & _). now destruct (Hnone e).
  - intros H. now destruct Hnp.
  - intros (e & He & _). now destruct (Hnone e).
  - intros (d & sh' & Hd & Hsh & Hbad). injection Hd as <-.
    rewrite Hrd in Hsh. injection Hsh as <-.
    destruct Hbad as [Hi | Hl]; [ | contradiction].
    apply forallb_ltb_false in Hi. congruence.
  - intros e He. now destruct (Hnone e).
  - right. eapply Hok. exact Hst.
Qed.

(** ** Determinism *)

(** C9: the build is a function of its inputs, and of the upload string
    it uses only the part after the comma: two uploads with the same
    payload and any two comma-free prefixes give the same result, be it
    an output or a failure. *)
Theorem build_ignores_prefix (prefix1 prefix2 payload : string) (t : list nat) :
  contains comma prefix1 = false ->
  contains comma prefix2 = false ->
  build (Some (prefix1 ++ String comma payload)%string) t
  = build (Some (prefix2 ++ String comma payload)%string) t.
Proof.
  intros H1 H2. unfold update_output, read_excel_contents.
  rewrite (str_split_prefix prefix1 payload H1), (str_split_prefix prefix2 payload H2).
  destruct (str_split comma payload) as [|s [|x l]]; reflexivity.
Qed.

(** ** No upload *)

(** C10: without an upload, [update_output] returns the placeholder (a
    [Div] holding the empty text and two empty figure dictionaries) for
    every template and every Excel engine, so nothing is decoded or parsed
    and nothing is raised; [update_tab_contents] gives the same
    placeholder for both pages. *)
Theorem no_upload_placeholder (t : list nat) :
  build None t = Ok (Div [""], EmptyDict, EmptyDict)
  /\ forall active_tab,
       update_tab_contents read_workbook parse_number fround show_num
         None None active_tab
       = Ok ((Div [""], EmptyDict, EmptyDict), (Div [""], EmptyDict, EmptyDict)).
Proof.
  split; [reflexivity | intros [tab|]; reflexivity].
Qed.

End Properties.

(** ** The properties on the small workbook *)

(** The third student of the small workbook: stars 3, 4 (typed as text)
    and 2.5, highest star 4. *)
Lemma highest_star_is_row_max_demo :
  exists hs,
    field "Highest_Star" (demo_record 4) = Some hs
    /\ max_of_defined (week_fields (demo_record 4)) hs
    /\ List.length (week_fields (demo_record 4)) = 6%nat
    /\ Forall (fun w => forall s, w <> Str s) (week_fields (demo_record 4)).
Proof.
  apply (highest_star_is_row_max (reader_of demo_sheet) parse_digits round_binary64
           str_float "data:application/vnd.ms-excel;base64,UEsD"
           columns_to_keep_page1 demo_table demo_bar demo_pie (demo_record 4)).
  - vm_compute. reflexivity.
  - vm_compute. tauto.
Defined.

(** C2 as stated fails: the first student of the small workbook has 7 in
    week 5, and the record's [Highest_Star] is 7, above 5. *)
Lemma highest_star_above_five :
  update_output (reader_of demo_sheet) parse_digits round_binary64 str_float
    (Some "data:application/vnd.ms-excel;base64,UEsD") columns_to_keep_page1
  = Ok (Table demo_table, demo_bar, demo_pie)
  /\ In (demo_record 2) (dt_data demo_table)
  /\ field "5" (demo_record 2) = Some (Num 7)
  /\ field "Highest_Star" (demo_record 2) = Some (Num 7)
  /\ ~ in_star_range (Num 7).
Proof.
  split; [vm_compute; reflexivity | ].
  split; [vm_compute; tauto | ].
  split; [vm_compute; reflexivity | ].
  split; [vm_compute; reflexivity | ].
  intros [_ H]. revert H. vm_compute. intros H. now apply H.
Qed.

Lemma highest_star_within_week_range_demo :
  (forall q, In (Num q) (week_fields (demo_record 4)) -> (0 <= q)%Q /\ (q <= 5)%Q)
  /\ exists hs,
       field "Highest_Star" (demo_record 4) = Some hs
       /\ (hs = NaN \/ In hs (week_fields (demo_record 4)))
       /\ in_star_range hs.
Proof.
  assert (Hrange : forall q, In (Num q) (week_fields (demo_record 4)) ->
                     (0 <= q)%Q /\ (q <= 5)%Q).
  { intros q Hq. vm_compute in Hq.
    repeat (destruct Hq as [Hq | Hq];
            [try discriminate Hq; injection Hq as <-; split; discriminate | ]).
    destruct Hq. }
  split; [exact Hrange | ].
  apply (highest_star_within_week_range (reader_of demo_sheet) parse_digits
           round_binary64 str_float "data:application/vnd.ms-excel;base64,UEsD"
           columns_to_keep_page1 demo_table demo_bar demo_pie (demo_record 4)).
  - vm_compute. reflexivity.
  - vm_compute. tauto.
  - exact Hrange.
Defined.

(** C3 as stated fails: the student of [overflow_sheet] has the finite
    float [2 ^ 1023] in week 1; it is the record's [Highest_Star], the
    product [Highest_Star / 5 * 100] overflows, and [Percentage] is
    ["inf%"], a text without decimal places. *)
Lemma percentage_overflows :
  update_output (reader_of overflow_sheet) parse_digits round_binary64 str_float
    (Some "data:application/vnd.ms-excel;base64,UEsD") columns_to_keep_page1
  = overflow_output
  /\ (exists bar pie, overflow_output = Ok (Table overflow_table, bar, pie))
  /\ In overflow_record (dt_data overflow_table)
  /\ field "Highest_Star" overflow_record = Some (Num (inject_Z (2 ^ 1023)))
  /\ is_inf (inject_Z (2 ^ 1023)) = false
  /\ field "Percentage" overflow_record = Some (Str "inf%")
  /\ ~ two_decimals "inf".
Proof.
  split; [reflexivity | ].
  split; [eexists _, _; vm_compute; reflexivity | ].
  split; [vm_compute; tauto | ].
  split; [vm_compute; reflexivity | ].
  split; [vm_compute; reflexivity | ].
  split; [vm_compute; reflexivity | ].
  apply (inf_text_has_no_decimals ""). now left.
Qed.

Lemma percentage_text_demo :
  exists hs pct,
    field "Highest_Star" (demo_record 1) = Some hs
    /\ field "Percentage" (demo_record 1) = Some (Str pct)
    /\ match hs with
       | Num x =>
           exists p,
             mul_scalar round_binary64 (div_scalar round_binary64 (Num x) 5) 100 = Num p
             /\ pct = (format_2f p ++ "%")%string
             /\ sign_bit p = sign_bit x
             /\ (is_inf p = false -> two_decimals (format_2f p))
             /\ (is_inf p = true -> format_2f p = "inf" \/ format_2f p = "-inf")
       | _ => pct = EmptyString
       end
    /\ (pct = EmptyString \/ ends_with_percent pct).
Proof.
  apply (percentage_text (reader_of demo_sheet) parse_digits round_binary64
           str_float "data:application/vnd.ms-excel;base64,UEsD"
           columns_to_keep_page1 demo_table demo_bar demo_pie (demo_record 1)).
  - vm_compute. reflexivity.
  - vm_compute. tauto.
Defined.

Lemma star_counts_groups_demo :
  let stars := map (field_or_nan "Highest_Star") (dt_data demo_table) in
  exists groups : list (Q * nat),
    demo_pie = PieFigure
                 [ mkPie (map (fun g => (string_of_nat (snd g) ++ " students = "
                                           ++ str_float (fst g) ++ " stars")%string) groups)
                         (map snd groups)
                         "pie" ]
                 "Pie Chart: Count of Students by Star Ratings"
    /\ StronglySorted (fun a b => (fst a < fst b)%Q) groups
    /\ (forall k n, In (k, n) groups -> n = count_num k stars /\ (0 < n)%nat)
    /\ (forall q, In (Num q) stars -> exists k n, In (k, n) groups /\ (k == q)%Q)
    /\ list_sum (map snd groups) = count_defined stars.
Proof.
  apply (star_counts_groups (reader_of demo_sheet) parse_digits round_binary64
           str_float "data:application/vnd.ms-excel;base64,UEsD"
           columns_to_keep_page1 demo_table demo_bar demo_pie).
  vm_compute. reflexivity.
Defined.

Lemma weekly_series_demo :
  let col name := map (field_or_nan name) (dt_data demo_table) in
  demo_bar = BarFigure
               (map (fun wk => mkBar (skipn 2 (col "Names")) (skipn 2 (col (fst wk)))
                                     "bar" (snd wk)) weeks)
               "Bar Graph: stars for Weeks 1 to 6"
  /\ exists decoded sh,
       transport_decode "data:application/vnd.ms-excel;base64,UEsD" = Ok decoded
       /\ reader_of demo_sheet decoded = Some sh
       /\ List.length (dt_data demo_table) = List.length (skipn 9 sh)
       /\ dt_page_size demo_table = List.length (skipn 9 sh)
       /\ forall name, In name column_names ->
            col name =
            map (fun row => if mem name numeric_columns
                            then to_numeric parse_digits
                                   (source_cell columns_to_keep_page1 name row)
                            else source_cell columns_to_keep_page1 name row)
                (skipn 9 sh).
Proof.
  apply (weekly_series (reader_of demo_sheet) parse_digits round_binary64
           str_float "data:application/vnd.ms-excel;base64,UEsD"
           columns_to_keep_page1 demo_table demo_bar demo_pie).
  vm_compute. reflexivity.
Defined.

(** C6 as stated fails: of the ten lines of [ten_line_sheet] two remain
    after the first eight, and the table has one record, because the ninth
    line is read as the header line. *)
Lemma header_line_is_not_a_record :
  exists tb bar pie,
    update_output (reader_of ten_line_sheet) parse_digits round_binary64 str_float
      (Some "data:application/vnd.ms-excel;base64,UEsD") columns_to_keep_page1
    = Ok (Table tb, bar, pie)
    /\ List.length (skipn 8 ten_line_sheet) = 2%nat
    /\ List.length (dt_data tb) = 1%nat.
Proof.
  eexists _, _, _. split; [vm_compute; reflexivity | ].
  split; reflexivity.
Qed.

Lemma record_count_and_columns_demo :
  exists decoded sh,
    transport_decode "data:application/vnd.ms-excel;base64,UEsD" = Ok decoded
    /\ reader_of demo_sheet decoded = Some sh
    /\ List.length (dt_data demo_table) = (List.length sh - 9)%nat
    /\ (forall r, In r (dt_data demo_table) ->
          map fst r = column_names ++ ["Highest_Star"; "Percentage"]
          /\ firstn 15 (map fst r) = column_names)
    /\ map fst (dt_columns demo_table) = column_names ++ ["Highest_Star"; "Percentage"].
Proof.
  apply (record_count_and_columns (reader_of demo_sheet) parse_digits round_binary64
           str_float "data:application/vnd.ms-excel;base64,UEsD"
           columns_to_keep_page1 demo_table demo_bar demo_pie).
  vm_compute. reflexivity.
Defined.

(** Week 3 of the first student holds the text ["absent"]. *)
Lemma unparsable_week_cell_demo :
  unparsable parse_digits (cell (columns demo_frame) "3" (nth 2 (rows demo_frame) []))
  /\ exists tb bar pie,
       update_output (reader_of demo_sheet) parse_digits round_binary64 str_float
         (Some "data:application/vnd.ms-excel;base64,UEsD") columns_to_keep_page1
       = Ok (Table tb, bar, pie)
       /\ List.length (dt_data tb) = List.length (rows demo_frame)
       /\ forall i row name,
            nth_error (rows demo_frame) i = Some row ->
            In name numeric_columns ->
            unparsable parse_digits (cell (columns demo_frame) name row) ->
            exists r hs,
              nth_error (dt_data tb) i = Some r
              /\ field name r = Some NaN
              /\ field "Highest_Star" r = Some hs
              /\ max_of_defined (other_week_fields name r) hs.
Proof.
  split; [vm_compute; reflexivity | ].
  apply (unparsable_week_cell (reader_of demo_sheet) parse_digits round_binary64
           str_float "data:application/vnd.ms-excel;base64,UEsD"
           columns_to_keep_page1 demo_frame).
  vm_compute. reflexivity.
Defined.

(** C8 as stated fails twice.  The payload ["!!!!"] is not base-64, yet
    decoding does not fail: its four characters are discarded, no byte is
    left, and the failure is the parse error of the empty workbook.  And
    the lines of [narrow_sheet] have 63 cells, which is not fewer than 63,
    the highest index of the template, yet selecting the columns fails. *)
Lemma lenient_decode_and_column_bound :
  (valid_base64 "!!!!" = false
   /\ b64decode "!!!!" = Ok []
   /\ update_output (reader_of demo_sheet) parse_digits round_binary64 str_float
        (Some "data:application/vnd.ms-excel;base64,!!!!") columns_to_keep_page1
      = Raise ExcelReadError
   /\ kind_of ExcelReadError <> DecodeError)
  /\ (Forall (fun line => List.length line = 63%nat) narrow_sheet
      /\ list_max columns_to_keep_page1 = 63%nat
      /\ ~ (63 < list_max columns_to_keep_page1)%nat
      /\ update_output (reader_of narrow_sheet) parse_digits round_binary64 str_float
           (Some "data:application/vnd.ms-excel;base64,UEsD") columns_to_keep_page1
         = Raise IndexError
      /\ kind_of IndexError = SchemaError).
Proof.
  split.
  - repeat split; try (vm_compute; reflexivity). discriminate.
  - split; [repeat constructor | ].
    split; [reflexivity | ].
    split; [vm_compute; lia | ].
    split; [vm_compute; reflexivity | reflexivity].
Qed.

Lemma build_ignores_prefix_demo :
  contains comma "data:application/vnd.ms-excel;base64" = false
  /\ contains comma "data:;base64" = false
  /\ update_output (reader_of demo_sheet) parse_digits round_binary64 str_float
       (Some ("data:application/vnd.ms-excel;base64" ++ String comma "UEsD")%string)
       columns_to_keep_page1
     = update_output (reader_of demo_sheet) parse_digits round_binary64 str_float
         (Some ("data:;base64" ++ String comma "UEsD")%string)
         columns_to_keep_page1.
Proof.
  split; [reflexivity | ]. split; [reflexivity | ].
  apply (build_ignores_prefix (reader_of demo_sheet) parse_digits round_binary64
           str_float "data:application/vnd.ms-excel;base64" "data:;base64" "UEsD"
           columns_to_keep_page1); reflexivity.
Defined.

(** * Further properties *)

(** ** The upload string *)

Lemma str_split_no_sep (sep : ascii) (s : string) :
  contains sep s = false -> str_split sep s = [s].
Proof.
  induction s as [|c s IH]; simpl; intros H; [reflexivity | ].
  apply orb_false_iff in H. destruct H as [Hc Hs].
  now rewrite Hc, (IH Hs).
Qed.

Lemma str_split_at (sep : ascii) (p s : string) :
  contains sep p = false ->
  str_split sep (p ++ String sep s) = p :: str_split sep s.
Proof.
  induction p as [|c p IH]; simpl; intros H.
  - now rewrite Ascii.eqb_refl.
  - apply orb_false_iff in H. destruct H as [Hc Hp].
    now rewrite Hc, (IH Hp).
Qed.

Lemma str_split_nonempty (sep : ascii) (s : string) : str_split sep s <> [].
Proof.
  destruct s as [|c s]; simpl; [discriminate | ].
  destruct (Ascii.eqb c sep); [discriminate | ].
  destruct (str_split sep s); discriminate.
Qed.

(** The pieces of a split, put together again. *)
Lemma str_split_pieces (sep : ascii) (s : string) :
  Forall (fun piece => contains sep piece = false) (str_split sep s)
  /\ String.concat (String sep EmptyString) (str_split sep s) = s
  /\ List.length (str_split sep s) = S (count_char sep s).
Proof.
  induction s as [|c s (IHf & IHc & IHl)]; simpl.
  - repeat split. constructor; [reflexivity | constructor].
  - destruct (Ascii.eqb c sep) eqn:E.
    + apply Ascii.eqb_eq in E. subst c. repeat split.
      * constructor; [reflexivity | exact IHf].
      * destruct (str_split sep s) as [|x l] eqn:Es.
        -- now destruct (str_split_nonempty sep s).
        -- simpl in *. now rewrite IHc.
      * cbn [List.length]. now rewrite IHl.
    + destruct (str_split sep s) as [|x l] eqn:Es.
      * now destruct (str_split_nonempty sep s).
      * repeat split.
        -- inversion IHf as [|? ? Hx Hl]; subst.
           constructor; [simpl; now rewrite E, Hx | exact Hl].
        -- destruct l as [|y l]; simpl in *; now rewrite IHc.
        -- cbn [List.length] in *. exact IHl.
Qed.

Lemma split_in_two (c a b : string) :
  str_split comma c = [a; b] <->
  c = (a ++ String comma b)%string
  /\ contains comma a = false /\ contains comma b = false.
Proof.
  split.
  - intros H. destruct (str_split_pieces comma c) as (Hf & Hc & _).
    rewrite H in Hf, Hc. simpl in Hc.
    inversion Hf as [|? ? Ha Hf']; subst. inversion Hf' as [|? ? Hb _]; subst.
    now repeat split.
  - intros (-> & Ha & Hb).
    now rewrite (str_split_at comma a b Ha), (str_split_no_sep comma b Hb).
Qed.

Lemma contains_count (c : ascii) (s : string) :
  contains c s = false <-> count_char c s = 0%nat.
Proof.
  induction s as [|x s IH]; simpl; [tauto | ].
  destruct (Ascii.eqb x c); simpl; [split; discriminate | exact IH].
Qed.

Lemma contains_insert (sep ch : ascii) (s1 s2 : string) :
  ch <> sep ->
  contains sep (s1 ++ String ch s2) = contains sep (s1 ++ s2).
Proof.
  intros H. apply Ascii.eqb_neq in H.
  induction s1 as [|x s1 IH]; simpl; [now rewrite H | now rewrite IH].
Qed.

Lemma is_ascii_insert (ch : ascii) (s1 s2 : string) :
  (N_of_ascii ch <? 128)%N = true ->
  is_ascii_str (s1 ++ String ch s2) = is_ascii_str (s1 ++ s2).
Proof.
  intros H. induction s1 as [|x s1 IH]; simpl; [now rewrite H | now rewrite IH].
Qed.

(** ** The decoder *)

Lemma b64_index_ascii (c : ascii) (v : N) :
  b64_index c = Some v ->
  (N_of_ascii c <? 128)%N = true /\ Ascii.eqb c comma = false
  /\ Ascii.eqb c pad_char = false.
Proof.
  destruct c as [[] [] [] [] [] [] [] []]; vm_compute; intros H;
    solve [discriminate H | repeat split].
Qed.

Lemma b64_body_ok_chars (s : string) :
  b64_body_ok s = true -> is_ascii_str s = true /\ contains comma s = false.
Proof.
  induction s as [|c s IH]; simpl; [now split | ].
  destruct (b64_index c) as [v|] eqn:E.
  - intros H. destruct (b64_index_ascii c v E) as (Ha & Hc & _).
    destruct (IH H) as [IHa IHc]. now rewrite Ha, Hc, IHa, IHc.
  - intros H. apply andb_true_iff in H. destruct H as [Hp Hs].
    apply Ascii.eqb_eq in Hp. subst c.
    apply orb_true_iff in Hs.
    destruct Hs as [Hs | Hs]; apply String.eqb_eq in Hs; subst s; now split.
Qed.

(** A well-formed text that completes the quad under way is accepted. *)
Lemma a2b_base64_accepts (s : string) :
  b64_body_ok s = true ->
  forall quad_pos leftchar pads out,
    (quad_pos < 4)%nat ->
    ((quad_pos + String.length s) mod 4 = 0)%nat ->
    exists decoded, a2b_base64 s quad_pos leftchar pads out = Ok decoded.
Proof.
  induction s as [|c s IH]; intros Hok quad_pos leftchar pads out Hq Hm;
    cbn [a2b_base64 b64_body_ok String.length] in *.
  - rewrite Nat.add_0_r, (Nat.mod_small _ _ Hq) in Hm. subst quad_pos.
    now exists out.
  - destruct (b64_index c) as [v|] eqn:E.
    + destruct (b64_index_ascii c v E) as (_ & _ & Hp). rewrite Hp.
      rewrite Nat.add_succ_r in Hm.
      destruct quad_pos as [|[|[|[|n]]]]; try lia.
      * apply (IH Hok 1%nat); [lia | exact Hm].
      * apply (IH Hok 2%nat); [lia | exact Hm].
      * apply (IH Hok 3%nat); [lia | exact Hm].
      * apply (IH Hok 0%nat); [lia | ].
        replace (S (3 + String.length s)) with (String.length s + 1 * 4)%nat in Hm by lia.
        now rewrite Nat.Div0.mod_add in Hm.
    + apply andb_true_iff in Hok. destruct Hok as [Hp Hs].
      apply Ascii.eqb_eq in Hp. subst c.
      apply orb_true_iff in Hs.
      destruct Hs as [Hs | Hs]; apply String.eqb_eq in Hs; subst s;
        cbn [String.length] in Hm.
      * destruct quad_pos as [|[|[|[|n]]]]; try lia; try discriminate Hm.
        simpl. now exists out.
      * destruct quad_pos as [|[|[|[|n]]]]; try lia; try discriminate Hm.
        destruct pads; simpl; now exists out.
Qed.

Lemma valid_base64_decodes (s : string) :
  valid_base64 s = true -> exists decoded, b64decode s = Ok decoded.
Proof.
  unfold valid_base64, b64decode. intros H.
  apply andb_true_iff in H. destruct H as [Hok Hlen].
  apply Nat.eqb_eq in Hlen.
  destruct (b64_body_ok_chars s Hok) as [Ha _]. rewrite Ha.
  apply a2b_base64_accepts; [exact Hok | lia | exact Hlen].
Qed.

(** The pending characters of a quad, counted in quarter bytes. *)
Lemma a2b_base64_size (s : string) :
  forall quad_pos leftchar pads out decoded,
    (quad_pos < 4)%nat ->
    a2b_base64 s quad_pos leftchar pads out = Ok decoded ->
    (4 * List.length decoded
     <= 4 * List.length out + nth quad_pos [0; 3; 2; 1] 0 + 3 * alphabet_count s)%nat.
Proof.
  induction s as [|c s IH]; intros quad_pos leftchar pads out decoded Hq;
    cbn [a2b_base64 alphabet_count].
  - destruct (Nat.eqb quad_pos 0); [ | discriminate].
    intros E. injection E as <-. lia.
  - destruct (Ascii.eqb c pad_char) eqn:Ep.
    + assert (Hidx : b64_index c = None).
      { apply Ascii.eqb_eq in Ep. subst c. reflexivity. }
      rewrite Hidx.
      destruct (Nat.leb 2 quad_pos); [ | now apply IH].
      destruct (Nat.leb 4 (quad_pos + S pads)); [ | now apply IH].
      intros E. injection E as <-. lia.
    + destruct (b64_index c) as [v|]; [ | now apply IH].
      destruct quad_pos as [|[|[|[|n]]]]; try lia; intros E;
        apply IH in E; try lia; rewrite ?length_app in E; simpl in *; lia.
Qed.

(** ** The build, further *)

Section Further.

Variable read_workbook : list byte -> option sheet.
Variable parse_number : string -> option Q.
Variable fround : Q -> Q.
Variable show_num : Q -> string.

Local Notation "'build'" := (update_output read_workbook parse_number fround show_num).
Local Notation "'tabs'" :=
  (update_tab_contents read_workbook parse_number fround show_num).

Lemma b64decode_not_unpack (s : string) : b64decode s <> Raise ValueError_unpack.
Proof.
  unfold b64decode. destruct (is_ascii_str s); [ | discriminate].
  intros E. apply a2b_base64_raises in E. discriminate.
Qed.

(** X1: line 47 lets through exactly the upload strings with one comma.
    The build raises the unpacking error if and only if the number of
    commas is not one; a string gets past line 47 if and only if it is
    [content_type ++ "," ++ content_string] with no comma in either part,
    and then the bytes are those of [content_string]. *)
Theorem upload_needs_one_comma (c : string) (t : list nat) :
  (build (Some c) t = Raise ValueError_unpack <-> count_char comma c <> 1%nat)
  /\ (forall content_type content_string,
        str_split comma c = [content_type; content_string] <->
        c = (content_type ++ String comma content_string)%string
        /\ contains comma content_type = false
        /\ contains comma content_string = false)
  /\ (forall content_type content_string,
        str_split comma c = [content_type; content_string] ->
        transport_decode c = b64decode content_string).
Proof.
  split; [ | split].
  - rewrite build_raises, read_excel_contents_stages.
    unfold transport_decode.
    destruct (str_split_pieces comma c) as (_ & _ & Hlen).
    destruct (str_split comma c) as [|a [|b [|x l]]]; cbn [List.length] in Hlen;
      try (split; [intros _; lia | reflexivity]).
    split; [ | intros H; lia]. intros H. exfalso.
    destruct (b64decode b) as [decoded|e] eqn:Hd.
    + destruct (read_workbook decoded); [ | discriminate].
      destruct (forallb _ t); [ | discriminate].
      destruct (Nat.eqb _ 15); discriminate.
    + apply (b64decode_not_unpack b). congruence.
  - intros a b. apply split_in_two.
  - intros a b H. unfold transport_decode. now rewrite H.
Qed.

(** X2: characters that [b64decode] passes over (ASCII characters that
    are not in the base-64 alphabet and are neither the pad character nor
    the comma; spaces and line breaks are such) can be put anywhere in the
    payload without changing the result of the build, output or failure.
    (A comma is not such a character: line 47 splits the upload at it.) *)
Theorem payload_junk_is_ignored (prefix s1 s2 : string) (ch : ascii) (t : list nat) :
  contains comma prefix = false ->
  is_junk ch = true ->
  build (Some (prefix ++ String comma (s1 ++ String ch s2))%string) t
  = build (Some (prefix ++ String comma (s1 ++ s2))%string) t.
Proof.
  intros Hp Hj. unfold is_junk in Hj.
  apply andb_true_iff in Hj. destruct Hj as [Hj Hc].
  apply andb_true_iff in Hj. destruct Hj as [Hj Hpad].
  apply andb_true_iff in Hj. destruct Hj as [Hascii Hidx].
  apply negb_true_iff, Ascii.eqb_neq in Hpad.
  apply negb_true_iff, Ascii.eqb_neq in Hc.
  destruct (b64_index ch) eqn:Ei; [discriminate | ].
  unfold update_output, read_excel_contents.
  rewrite !(str_split_prefix prefix _ Hp).
  pose proof (contains_insert comma ch s1 s2 Hc) as Hcont.
  destruct (contains comma (s1 ++ s2)) eqn:E2.
  - destruct (str_split_pieces comma (s1 ++ String ch s2)) as (_ & _ & L1).
    destruct (str_split_pieces comma (s1 ++ s2)) as (_ & _ & L2).
    assert (N1 : count_char comma (s1 ++ String ch s2) <> 0%nat).
    { intros Z. apply contains_count in Z. congruence. }
    assert (N2 : count_char comma (s1 ++ s2) <> 0%nat).
    { intros Z. apply contains_count in Z. congruence. }
    destruct (str_split comma (s1 ++ String ch s2)) as [|a1 [|b1 l1]];
      cbn [List.length] in L1; try lia.
    destruct (str_split comma (s1 ++ s2)) as [|a2 [|b2 l2]];
      cbn [List.length] in L2; try lia.
    reflexivity.
  - rewrite (str_split_no_sep comma _ Hcont), (str_split_no_sep comma _ E2).
    unfold b64decode.
    rewrite (is_ascii_insert ch s1 s2 Hascii).
    now rewrite (a2b_base64_discards s1 s2 ch Ei Hpad).
Qed.

(** A comma in the payload is not passed over: the upload then has two
    commas and line 47 fails. *)
Example comma_in_payload_breaks_the_build :
  build (Some "data:;base64,UE,sD") columns_to_keep_page1 = Raise ValueError_unpack.
Proof. reflexivity. Qed.

(** X3: a payload that is well-formed base-64 (alphabet characters, at
    most two pad characters at the end, a length that is a multiple of
    four) always decodes, so a build on it never fails with a decode
    error, whatever the prefix before the comma. *)
Theorem well_formed_payload_decodes (prefix payload : string) (t : list nat) :
  contains comma prefix = false ->
  valid_base64 payload = true ->
  (exists decoded,
     transport_decode (prefix ++ String comma payload) = Ok decoded)
  /\ forall e, build (Some (prefix ++ String comma payload)%string) t = Raise e ->
               kind_of e <> DecodeError.
Proof.
  intros Hp Hv.
  destruct (valid_base64_decodes payload Hv) as (decoded & Hd).
  assert (Hc : contains comma payload = false).
  { unfold valid_base64 in Hv. apply andb_true_iff in Hv.
    now destruct (b64_body_ok_chars payload (proj1 Hv)). }
  assert (Ht : transport_decode (prefix ++ String comma payload) = Ok decoded).
  { unfold transport_decode.
    now rewrite (str_split_prefix prefix payload Hp), (str_split_no_sep comma payload Hc). }
  split; [now exists decoded | ].
  intros e He. apply build_raises in He.
  rewrite read_excel_contents_stages, Ht in He.
  destruct (read_workbook decoded); [ | injection He as <-; discriminate].
  destruct (forallb _ t); [ | injection He as <-; discriminate].
  destruct (Nat.eqb _ 15); [discriminate | injection He as <-; discriminate].
Qed.

(** X4: the bytes that line 48 hands to the Excel engine are at most
    three for every four base-64 characters of the payload. *)
Theorem decoded_size_bound (c : string) (decoded : list byte) :
  transport_decode c = Ok decoded ->
  exists content_type content_string,
    str_split comma c = [content_type; content_string]
    /\ (4 * List.length decoded <= 3 * alphabet_count content_string)%nat
    /\ (4 * List.length decoded <= 3 * String.length c)%nat.
Proof.
  unfold transport_decode.
  destruct (str_split comma c) as [|a [|b [|x l]]] eqn:Hs; try discriminate.
  intros Hd. exists a, b. split; [reflexivity | ].
  unfold b64decode in Hd. destruct (is_ascii_str b); [ | discriminate].
  apply a2b_base64_size in Hd; [ | lia]. simpl in Hd.
  split; [lia | ].
  apply split_in_two in Hs. destruct Hs as (-> & _ & _).
  assert (Hcount : forall s, (alphabet_count s <= String.length s)%nat).
  { induction s as [|ch s IH]; simpl; [lia | destruct (b64_index ch); lia]. }
  assert (Hlen : forall s1 s2,
             String.length (s1 ++ s2) = (String.length s1 + String.length s2)%nat).
  { induction s1 as [|ch s1 IH]; intros s2; simpl; [reflexivity | now rewrite IH]. }
  rewrite Hlen. cbn [String.length]. specialize (Hcount b). lia.
Qed.

Lemma build_succeeds_iff (c : string) (t : list nat) :
  (exists out, build (Some c) t = Ok out) <->
  exists decoded sh,
    transport_decode c = Ok decoded
    /\ read_workbook decoded = Some sh
    /\ forallb (fun i => Nat.ltb i (List.length (hd [] (skipn 8 sh)))) t = true
    /\ List.length t = 15%nat.
Proof.
  split.
  - intros (out & H).
    destruct (update_output_ok _ _ _ _ c t out H)
      as (ct & payload & decoded & sh & Hs & Hd & Hr & Hl & Ha & _).
    exists decoded, sh. repeat split; try assumption.
    unfold transport_decode. now rewrite Hs.
  - intros (decoded & sh & Ht & Hr & Ha & Hl).
    unfold update_output. rewrite read_excel_contents_stages, Ht, Hr, Ha.
    apply Nat.eqb_eq in Hl. rewrite Hl. simpl bind. eexists. reflexivity.
Qed.

(** X5: the two templates of [update_tab_contents] ask for sheets of
    different widths: a build with the second template succeeds only on a
    sheet whose header line has at least 76 cells, and every upload that
    builds with the second template also builds with the first (which
    needs 64 cells). *)
Theorem second_template_needs_wider_sheet (c : string) (out : output) :
  build (Some c) columns_to_keep_page2 = Ok out ->
  (exists decoded sh,
     transport_decode c = Ok decoded
     /\ read_workbook decoded = Some sh
     /\ (76 <= List.length (hd [] (skipn 8 sh)))%nat)
  /\ exists out', build (Some c) columns_to_keep_page1 = Ok out'.
Proof.
  intros H.
  assert (Hex : exists o, build (Some c) columns_to_keep_page2 = Ok o) by now exists out.
  apply build_succeeds_iff in Hex.
  destruct Hex as (decoded & sh & Ht & Hr & Ha & _).
  set (w := List.length (hd [] (skipn 8 sh))) in *.
  assert (Hw : (76 <= w)%nat).
  { cbn [forallb columns_to_keep_page2] in Ha.
    repeat (apply andb_true_iff in Ha; destruct Ha as [? Ha]).
    repeat match goal with
           | H : Nat.ltb _ _ = true |- _ => apply Nat.ltb_lt in H
           end.
    lia. }
  split; [now exists decoded, sh | ].
  apply build_succeeds_iff. exists decoded, sh.
  repeat split; try assumption.
  fold w. cbn [forallb columns_to_keep_page1].
  repeat (apply andb_true_iff; split); try reflexivity; apply Nat.ltb_lt; lia.
Qed.

(** X6: every trace of the bar chart has as many names as values, namely
    the number of records less two; with two records or fewer the six
    traces are empty, while the table still shows the records. *)
Theorem bar_traces_skip_two (c : string) (t : list nat) (tb : DataTable)
    (bar pie : figure) :
  build (Some c) t = Ok (Table tb, bar, pie) ->
  List.length (traces_of bar) = 6%nat
  /\ Forall (fun tr =>
               List.length (bar_x tr) = (List.length (dt_data tb) - 2)%nat
               /\ List.length (bar_y tr) = (List.length (dt_data tb) - 2)%nat)
            (traces_of bar).
Proof.
  intros H.
  destruct (update_output_ok _ _ _ _ c t _ H)
    as (ct & payload & decoded & sh & _ & _ & _ & Hl & _ & E).
  set (data := skipn 9 sh) in *.
  injection E as -> -> _. cbn [traces_of dt_data].
  split; [reflexivity | ].
  assert (Hcol : forall name,
             List.length (skipn 2 (getcol (final_frame parse_number fround t data) name))
             = (List.length (to_dict_records (final_frame parse_number fround t data)) - 2)%nat).
  { intros name. unfold getcol, to_dict_records.
    now rewrite length_skipn, !length_map. }
  repeat constructor; cbn [bar_x bar_y week_trace]; apply Hcol.
Qed.

Lemma append_percent_not_empty (s : string) : (s ++ "%")%string <> EmptyString.
Proof.
  destruct s; discriminate.
Qed.

Lemma percentage_of_number (x : Q) :
  exists p, percentage fround (Num x) = Str (format_2f p ++ "%").
Proof.
  unfold percentage, percent_text, mul_scalar, div_scalar.
  eexists. reflexivity.
Qed.

(** X7: the [Percentage] of a record is the empty text exactly when none
    of its six week fields holds a number, that is, exactly when its
    [Highest_Star] is missing. *)
Theorem blank_percentage_iff_no_score (c : string) (t : list nat) (tb : DataTable)
    (bar pie : figure) (r : record) :
  build (Some c) t = Ok (Table tb, bar, pie) ->
  In r (dt_data tb) ->
  (field "Percentage" r = Some (Str EmptyString)
     <-> forall q, ~ In (Num q) (week_fields r))
  /\ (field "Percentage" r = Some (Str EmptyString)
     <-> field "Highest_Star" r = Some NaN).
Proof.
  intros H Hin.
  destruct (build_record _ _ _ _ c t tb bar pie r H Hin) as (Hl & row & ->).
  destruct (final_record parse_number fround t row Hl) as (_ & _ & Hhs & Hpct).
  set (r := combine final_columns (final_row parse_number fround t row)) in *.
  rewrite Hhs, Hpct.
  pose proof (nanmax_spec (week_fields r)) as Hmax.
  destruct (nanmax (week_fields r)) as [m|s|]; simpl in Hmax.
  - destruct Hmax as [Hm _].
    destruct (percentage_of_number m) as (p & ->).
    assert (Hne : Some (Str (format_2f p ++ "%")) <> Some (Str EmptyString)).
    { intros E. apply (append_percent_not_empty (format_2f p)). congruence. }
    split; split.
    + intros E. now destruct Hne.
    + intros Hno. now destruct (Hno m).
    + intros E. now destruct Hne.
    + discriminate.
  - destruct Hmax.
  - split; split; auto.
Qed.

Lemma length_le_sum (l : list nat) :
  Forall (fun n => (0 < n)%nat) l -> (List.length l <= list_sum l)%nat.
Proof.
  induction 1; simpl; lia.
Qed.

(** X8: the pie chart has one slice list, whose labels and values are
    equally many; every value is at least one, and there are never more
    slices than records with a defined [Highest_Star]. *)
Theorem pie_slices_bounded (c : string) (t : list nat) (tb : DataTable)
    (bar pie : figure) :
  build (Some c) t = Ok (Table tb, bar, pie) ->
  exists slice,
    slices_of pie = [slice]
    /\ List.length (pie_labels slice) = List.length (pie_values slice)
    /\ Forall (fun n => (0 < n)%nat) (pie_values slice)
    /\ (List.length (pie_values slice)
        <= count_defined (map (field_or_nan "Highest_Star") (dt_data tb)))%nat
    /\ (List.length (pie_values slice) <= List.length (dt_data tb))%nat.
Proof.
  intros H.
  destruct (update_output_ok _ _ _ _ c t _ H)
    as (ct & payload & decoded & sh & _ & _ & _ & Hl & _ & E).
  set (data := skipn 9 sh) in *.
  injection E as -> _ ->. cbn [slices_of dt_data].
  eexists. split; [reflexivity | ]. cbn [pie_labels pie_values].
  rewrite <- getcol_records.
  set (col := getcol (final_frame parse_number fround t data) "Highest_Star").
  destruct (star_counts_spec col) as (_ & Hc & _ & Hs).
  assert (Hpos : Forall (fun n => (0 < n)%nat)
                   (map snd (sort_index (value_counts col)))).
  { apply Forall_forall. intros n Hn. apply in_map_iff in Hn.
    destruct Hn as ([k n'] & <- & Hk). now apply (Hc k n'). }
  assert (Hle : (List.length (map snd (sort_index (value_counts col)))
                 <= count_defined col)%nat).
  { rewrite <- Hs. now apply length_le_sum. }
  split; [now rewrite !length_map | ].
  split; [exact Hpos | ]. split; [exact Hle | ].
  eapply Nat.le_trans; [exact Hle | ].
  unfold count_defined, col, getcol, to_dict_records.
  eapply Nat.le_trans; [apply filter_length_le | ].
  now rewrite !length_map.
Qed.

(** X9: with a tab value, [update_tab_contents] builds both pages, each
    with its own template, and returns the six outputs only when both
    builds succeed; otherwise it raises the error of the first page that
    fails, so a bad upload on one page leaves the other page without
    output as well.  Which tab is active makes no difference.  Without a
    tab value it returns the placeholders and never raises, whatever was
    uploaded. *)
Theorem tabs_are_built_together (contents_page1 contents_page2 : option string) :
  (forall tab,
      tabs contents_page1 contents_page2 (Some tab) =
      match build contents_page1 columns_to_keep_page1 with
      | Raise e => Raise e
      | Ok o1 =>
          match build contents_page2 columns_to_keep_page2 with
          | Raise e => Raise e
          | Ok o2 => Ok (o1, o2)
          end
      end)
  /\ (forall tab tab',
        tabs contents_page1 contents_page2 (Some tab)
        = tabs contents_page1 contents_page2 (Some tab'))
  /\ tabs contents_page1 contents_page2 None
     = Ok ((Div [""], EmptyDict, EmptyDict), (Div [""], EmptyDict, EmptyDict)).
Proof.
  split; [ | split].
  - intros tab. unfold update_tab_contents.
    destruct contents_page1 as [c1|], contents_page2 as [c2|]; reflexivity.
  - intros tab tab'. unfold update_tab_contents.
    destruct contents_page1 as [c1|], contents_page2 as [c2|]; reflexivity.
  - unfold update_tab_contents.
    destruct contents_page1 as [c1|], contents_page2 as [c2|]; reflexivity.
Qed.

End Further.

(** ** What the build does not look at *)



(** The width does matter: a remark in the 64th cell of a title line turns
    the failure on [narrow_sheet] into a table, although no selected cell
    below the header line has changed. *)
Example title_cell_widens_the_sheet :
  rectangular 63 narrow_sheet
  /\ rectangular 64 widened_sheet
  /\ map (select_cells columns_to_keep_page1) (skipn 9 narrow_sheet)
     = map (select_cells columns_to_keep_page1) (skipn 9 widened_sheet)
  /\ update_output (reader_of narrow_sheet) parse_digits round_binary64 str_float
       (Some "data:application/vnd.ms-excel;base64,UEsD") columns_to_keep_page1
     = Raise IndexError
  /\ exists out,
       update_output (reader_of widened_sheet) parse_digits round_binary64 str_float
         (Some "data:application/vnd.ms-excel;base64,UEsD") columns_to_keep_page1
       = Ok out.
Proof.
  split; [repeat constructor | ].
  split; [repeat constructor | ].
  split; [vm_compute; reflexivity | ].
  split; [vm_compute; reflexivity | ].
  eexists. vm_compute. reflexivity.
Qed.

(** ** Login *)

(** X11: [handle_login] shows the dashboard exactly when the button has
    been clicked and the entered name and password are the two expected
    texts, letter for letter; a click with anything else (an empty box
    included) gives the failure alert, and without a click the login page is
    returned whatever has been entered. *)
Theorem login_gate (n_login_clicks : Z) (entered_username entered_password : option string) :
  (handle_login n_login_clicks entered_username entered_password = dashboard
     <-> (0 < n_login_clicks)%Z
         /\ entered_username = Some "mauli"
         /\ entered_password = Some "mauliccd")
  /\ (handle_login n_login_clicks entered_username entered_password = login_failed
     <-> (0 < n_login_clicks)%Z
         /\ ~ (entered_username = Some "mauli" /\ entered_password = Some "mauliccd"))
  /\ (handle_login n_login_clicks entered_username entered_password = app_layout
     <-> (n_login_clicks <= 0)%Z).
Proof.
  assert (Hin : forall entered literal,
             input_is entered literal = true <-> entered = Some literal).
  { intros [s|] literal; simpl.
    - rewrite String.eqb_eq. split; [now intros -> | now intros [= ->]].
    - split; discriminate. }
  unfold handle_login.
  destruct (0 <? n_login_clicks)%Z eqn:Hn;
    [apply Z.ltb_lt in Hn | apply Z.ltb_ge in Hn].
  - destruct (input_is entered_username "mauli" && input_is entered_password "mauliccd")
      eqn:Hc.
    + apply andb_true_iff in Hc. rewrite !Hin in Hc.
      split; [ | split].
      * split; [now intros _ | reflexivity].
      * split; [discriminate | now intros [_ Hno]].
      * split; [discriminate | lia].
    + assert (Hno : ~ (entered_username = Some "mauli" /\ entered_password = Some "mauliccd")).
      { intros Hboth. rewrite <- !Hin in Hboth.
        apply andb_true_iff in Hboth. congruence. }
      split; [ | split].
      * split; [discriminate | ]. intros (_ & Hu & Hp). now destruct Hno.
      * split; [now intros _ | reflexivity].
      * split; [discriminate | lia].
  - split; [ | split].
    + split; [discriminate | lia].
    + split; [discriminate | lia].
    + split; [now intros _ | reflexivity].
Qed.

(** X12: [show_contact_message] shows the contact text exactly when the
    click count is a positive integer, and shows nothing, without raising,
    when the count is missing, zero or negative. *)
Theorem contact_message_iff_clicked (n_clicks : option Z) :
  (show_contact_message n_clicks = Some contact_message
     <-> exists n, n_clicks = Some n /\ (0 < n)%Z)
  /\ (show_contact_message n_clicks = None
     <-> n_clicks = None \/ exists n, n_clicks = Some n /\ (n <= 0)%Z).
Proof.
  unfold show_contact_message. destruct n_clicks as [n|].
  - destruct (0 <? n)%Z eqn:Hn; [apply Z.ltb_lt in Hn | apply Z.ltb_ge in Hn].
    + split; split.
      * intros _. now exists n.
      * reflexivity.
      * discriminate.
      * intros [H | (k & [= <-] & Hk)]; [discriminate | lia].
    + split; split.
      * discriminate.
      * intros (k & [= <-] & Hk). lia.
      * intros _. right. now exists n.
      * reflexivity.
  - split; split.
    + discriminate.
    + intros (k & Hk & _). discriminate.
    + now left.
    + reflexivity.
Qed.

(** ** Reading a percentage back *)

Lemma round_half_even_near (n : Z) (d : positive) :
  let h := round_half_even (n # d) in
  (- Zpos d <= 2 * (h * Zpos d - n) <= Zpos d)%Z.
Proof.
  unfold round_half_even. cbn [Qnum Qden].
  pose proof (Z.div_mod n (Zpos d) ltac:(lia)) as Hdm.
  pose proof (Z.mod_pos_bound n (Zpos d) ltac:(lia)) as Hb.
  set (k := (n / Zpos d)%Z) in *. set (r := (n mod Zpos d)%Z) in *.
  destruct (2 * r <? Zpos d)%Z eqn:E1; [apply Z.ltb_lt in E1; nia | apply Z.ltb_ge in E1].
  destruct (Zpos d <? 2 * r)%Z eqn:E2; [apply Z.ltb_lt in E2; nia | apply Z.ltb_ge in E2].
  destruct (Z.even k); nia.
Qed.

Lemma round_half_even_nonneg (n : Z) (d : positive) :
  (0 <= n)%Z -> (0 <= round_half_even (n # d))%Z.
Proof.
  intros Hn. unfold round_half_even. cbn [Qnum Qden].
  pose proof (Z.div_pos n (Zpos d) Hn ltac:(lia)) as Hk.
  destruct (2 * (n mod Zpos d) <? Zpos d)%Z; [exact Hk | ].
  destruct (Zpos d <? 2 * (n mod Zpos d))%Z; [lia | ].
  destruct (Z.even (n / Zpos d)); lia.
Qed.

Lemma uint_digits_only (d : Decimal.uint) (c : ascii) :
  is_digit c = false -> contains c (NilEmpty.string_of_uint d) = false.
Proof.
  intros Hc. induction d; cbn [NilEmpty.string_of_uint contains]; try reflexivity;
    rewrite IHd, orb_false_r; apply Ascii.eqb_neq; intros <-; discriminate Hc.
Qed.

Lemma digits_value_uint (d : Decimal.uint) :
  forall acc : nat,
    digits_value (NilEmpty.string_of_uint d) (Z.of_nat acc)
    = Some (Z.of_nat (Nat.of_uint_acc d acc)).
Proof.
  induction d; intros acc;
    cbn [NilEmpty.string_of_uint digits_value Nat.of_uint_acc];
    try reflexivity;
    rewrite Nat.tail_mul_spec;
    match goal with
    | |- context [is_digit ?c] =>
        change (is_digit c) with true;
        let v := eval vm_compute in (Z.of_N (N_of_ascii c)) in
        change (Z.of_N (N_of_ascii c)) with v
    end;
    cbv iota; rewrite <- IHd; f_equal; lia.
Qed.

Lemma digits_value_pos (d : Decimal.uint) :
  forall acc : positive,
    digits_value (NilEmpty.string_of_uint d) (Zpos acc)
    = Some (Zpos (Pos.of_uint_acc d acc)).
Proof.
  induction d; intros acc;
    cbn [NilEmpty.string_of_uint digits_value Pos.of_uint_acc];
    try reflexivity;
    match goal with
    | |- context [is_digit ?c] =>
        change (is_digit c) with true;
        let v := eval vm_compute in (Z.of_N (N_of_ascii c)) in
        change (Z.of_N (N_of_ascii c)) with v
    end;
    cbv iota; rewrite <- IHd; f_equal; lia.
Qed.

Lemma digits_value_of_uint (d : Decimal.uint) :
  digits_value (NilEmpty.string_of_uint d) 0%Z = Some (Z.of_N (Pos.of_uint d)).
Proof.
  induction d; cbn [NilEmpty.string_of_uint digits_value Pos.of_uint];
    try reflexivity;
    match goal with
    | |- context [is_digit ?c] =>
        change (is_digit c) with true;
        let v := eval vm_compute in (Z.of_N (N_of_ascii c)) in
        change (Z.of_N (N_of_ascii c)) with v
    end;
    cbv iota; cbn [Z.mul Z.add Z.sub Z.opp Z.pos_sub Pos.pred_double Z.succ_double
                    Z.pred_double Z.double Pos.add Pos.succ];
    solve [exact IHd | apply digits_value_pos].
Qed.

Lemma digits_value_of_N (n : N) :
  digits_value (string_of_N n) 0%Z = Some (Z.of_N n).
Proof.
  unfold string_of_N. rewrite digits_value_of_uint.
  change (Pos.of_uint (N.to_uint n)) with (N.of_uint (N.to_uint n)).
  now rewrite DecimalN.Unsigned.of_to.
Qed.

Lemma digit_code (n : nat) :
  (n < 10)%nat -> Z.of_N (N_of_ascii (digit n)) = (48 + Z.of_nat n)%Z.
Proof.
  intros H. do 10 (destruct n as [|n]; [reflexivity | ]). lia.
Qed.

Lemma digits_value_two_digits (m : nat) :
  (m < 100)%nat -> digits_value (two_digits m) 0%Z = Some (Z.of_nat m).
Proof.
  intros H. unfold two_digits. cbn [digits_value].
  assert (Ha : (m / 10 < 10)%nat) by (apply Nat.Div0.div_lt_upper_bound; lia).
  assert (Hb : (m mod 10 < 10)%nat) by (apply Nat.mod_upper_bound; lia).
  rewrite !digit_is_digit, !digit_code by assumption.
  f_equal. pose proof (Nat.div_mod_eq m 10). lia.
Qed.

Lemma two_digits_no_point (m : nat) :
  (m < 100)%nat -> contains "."%char (two_digits m) = false.
Proof.
  intros H. unfold two_digits. cbn [contains].
  assert (Ha : (m / 10 < 10)%nat) by (apply Nat.Div0.div_lt_upper_bound; lia).
  assert (Hb : (m mod 10 < 10)%nat) by (apply Nat.mod_upper_bound; lia).
  assert (Hd : forall k, (k < 10)%nat -> Ascii.eqb (digit k) "."%char = false).
  { intros k Hk. apply Ascii.eqb_neq. intros E.
    pose proof (digit_is_digit k Hk) as D. rewrite E in D. discriminate D. }
  now rewrite (Hd _ Ha), (Hd _ Hb).
Qed.

(** The text that [format_2f] prints for a finite float, read back, is
    within half a hundredth of the float. *)
Lemma format_2f_reads_back (x : Q) :
  is_inf x = false ->
  exists y, parse_2f (format_2f x) = Some y /\ (Qabs (y - x) <= 1 # 200)%Q.
Proof.
  destruct x as [n d]. intros Hfin.
  unfold format_2f. rewrite Hfin.
  set (h := round_half_even (Qabs (n # d) * 100)).
  assert (Hh : (0 <= h)%Z).
  { unfold h. change (Qabs (n # d) * 100)%Q with (Z.abs n * 100 # d * 1).
    apply round_half_even_nonneg. lia. }
  assert (Hnear : (- Zpos d <= 2 * (h * Zpos d) - 200 * Z.abs n <= Zpos d)%Z).
  { pose proof (round_half_even_near (Z.abs n * 100) (d * 1)) as Hr.
    cbn zeta in Hr.
    change (round_half_even (Z.abs n * 100 # d * 1)) with h in Hr.
    rewrite Pos2Z.inj_mul in Hr. lia. }
  set (a := Z.to_N (h / 100)). set (b := Z.to_nat (h mod 100)).
  assert (Hb : (b < 100)%nat).
  { unfold b. pose proof (Z.mod_pos_bound h 100 eq_refl). lia. }
  assert (Hab : (100 * Z.of_N a + Z.of_nat b = h)%Z).
  { unfold a, b. pose proof (Z.div_mod h 100 ltac:(lia)).
    pose proof (Z.mod_pos_bound h 100 eq_refl).
    pose proof (Z.div_pos h 100 Hh ltac:(lia)). lia. }
  set (body := (string_of_N a ++ String "."%char (two_digits b))%string).
  assert (Hbody : str_split "."%char body = [string_of_N a; two_digits b]).
  { unfold body.
    rewrite str_split_at by (apply uint_digits_only; reflexivity).
    now rewrite str_split_no_sep by (now apply two_digits_no_point). }
  assert (Hparse : forall neg : bool,
             match str_split "."%char body with
             | [whole; hundredths] =>
                 match digits_value whole 0%Z, digits_value hundredths 0%Z with
                 | Some a', Some b' =>
                     if Nat.eqb (String.length hundredths) 2
                     then Some ((if neg then - (1) else 1)
                                * (inject_Z a' + inject_Z b' / 100))%Q
                     else None
                 | _, _ => None
                 end
             | _ => None
             end
             = Some ((if neg then - (1) else 1)
                     * (inject_Z (Z.of_N a) + inject_Z (Z.of_nat b) / 100))%Q).
  { intros neg.
    now rewrite Hbody, digits_value_of_N, (digits_value_two_digits b Hb). }
  destruct (sign_bit (n # d)) eqn:Hs.
  - assert (Hn : (n <= 0)%Z).
    { unfold sign_bit in Hs. cbn [Qnum] in Hs. apply orb_true_iff in Hs.
      destruct Hs as [Hs | Hs]; [apply Z.ltb_lt in Hs; lia | ].
      apply andb_true_iff in Hs. destruct Hs as [Hs _]. apply Z.eqb_eq in Hs. lia. }
    exists (- (1) * (inject_Z (Z.of_N a) + inject_Z (Z.of_nat b) / 100))%Q.
    split.
    + match goal with
      | |- parse_2f _ = ?rhs => change (parse_2f (String "-"%char body) = rhs)
      end.
      unfold parse_2f. cbn [Ascii.eqb Bool.eqb fst snd]. apply (Hparse true).
    + apply Qabs_Qle_condition.
      unfold Qle, Qminus, Qplus, Qmult, Qdiv, Qinv, Qopp, inject_Z.
      split; cbn -[Z.mul Z.add Z.opp Z.of_nat Z.of_N Pos.mul];
        rewrite ?Pos2Z.inj_mul; lia.
  - assert (Hn : (0 <= n)%Z).
    { unfold sign_bit in Hs. cbn [Qnum] in Hs. apply orb_false_iff in Hs.
      destruct Hs as [Hs _]. apply Z.ltb_ge in Hs. lia. }
    exists (1 * (inject_Z (Z.of_N a) + inject_Z (Z.of_nat b) / 100))%Q.
    split.
    + match goal with
      | |- parse_2f _ = ?rhs => change (parse_2f body = rhs)
      end.
      unfold parse_2f.
      assert (Hsign : match body with
                      | String c r => if Ascii.eqb c "-"%char then (true, r) else (false, body)
                      | EmptyString => (false, body)
                      end = (false, body)).
      { pose proof (uint_digits_only (N.to_uint a) "-"%char eq_refl) as Hm.
        fold (string_of_N a) in Hm. unfold body.
        destruct (string_of_N a) as [|c u]; [reflexivity | ].
        cbn [contains] in Hm. apply orb_false_iff in Hm. destruct Hm as [Hm _].
        cbn [append]. now rewrite Hm. }
      rewrite Hsign. cbn [fst snd]. apply (Hparse false).
    + apply Qabs_Qle_condition.
      unfold Qle, Qminus, Qplus, Qmult, Qdiv, Qinv, Qopp, inject_Z.
      split; cbn -[Z.mul Z.add Z.opp Z.of_nat Z.of_N Pos.mul];
        rewrite ?Pos2Z.inj_mul; lia.
Qed.

Section ReadBack.

Variable read_workbook : list byte -> option sheet.
Variable parse_number : string -> option Q.
Variable fround : Q -> Q.
Variable show_num : Q -> string.

Local Notation "'build'" := (update_output read_workbook parse_number fround show_num).

(** X13: when the float [Highest_Star / 5 * 100] of a record is finite,
    the [Percentage] is a two-decimal text followed by ["%"], and the text
    read back as a number is within 0.005 of that float.  (When it is
    infinite the text is [inf] or [-inf].) *)
Theorem percentage_reads_back (c : string) (t : list nat) (tb : DataTable)
    (bar pie : figure) (r : record) (x p : Q) :
  build (Some c) t = Ok (Table tb, bar, pie) ->
  In r (dt_data tb) ->
  field "Highest_Star" r = Some (Num x) ->
  mul_scalar fround (div_scalar fround (Num x) 5) 100 = Num p ->
  is_inf p = false ->
  exists text y,
    field "Percentage" r = Some (Str (text ++ "%"))
    /\ two_decimals text
    /\ parse_2f text = Some y
    /\ (Qabs (y - p) <= 1 # 200)%Q.
Proof.
  intros H Hin Hx Hp Hfin.
  destruct (build_record _ _ _ _ c t tb bar pie r H Hin) as (Hl & row & ->).
  destruct (final_record parse_number fround t row Hl) as (_ & _ & Hhs & Hpct).
  set (r := combine final_columns (final_row parse_number fround t row)) in *.
  assert (Hmax : nanmax (week_fields r) = Num x) by congruence.
  rewrite Hmax in Hpct. unfold percentage in Hpct. rewrite Hp in Hpct.
  destruct (format_2f_reads_back p Hfin) as (y & Hy & Hb).
  exists (format_2f p), y.
  split; [exact Hpct | ]. split; [now apply format_2f_two_decimals | now split].
Qed.

End ReadBack.

(** ** The further properties on the small workbook *)

Lemma payload_junk_is_ignored_demo :
  update_output (reader_of demo_sheet) parse_digits round_binary64 str_float
    (Some ("data:;base64" ++ String comma ("UE" ++ String " " "sD"))%string)
    columns_to_keep_page1
  = update_output (reader_of demo_sheet) parse_digits round_binary64 str_float
      (Some ("data:;base64" ++ String comma ("UE" ++ "sD"))%string)
      columns_to_keep_page1.
Proof.
  apply (payload_junk_is_ignored (reader_of demo_sheet) parse_digits round_binary64
           str_float "data:;base64" "UE" "sD" " "%char columns_to_keep_page1).
  - reflexivity.
  - reflexivity.
Defined.

Lemma well_formed_payload_decodes_demo :
  valid_base64 "UEsD" = true
  /\ (exists decoded,
        transport_decode ("data:;base64" ++ String comma "UEsD") = Ok decoded)
  /\ forall e,
       update_output (reader_of demo_sheet) parse_digits round_binary64 str_float
         (Some ("data:;base64" ++ String comma "UEsD")%string) columns_to_keep_page1
       = Raise e ->
       kind_of e <> DecodeError.
Proof.
  split; [reflexivity | ].
  apply (well_formed_payload_decodes (reader_of demo_sheet) parse_digits round_binary64
           str_float "data:;base64" "UEsD" columns_to_keep_page1); reflexivity.
Defined.

Lemma decoded_size_bound_demo :
  exists content_type content_string,
    str_split comma "data:;base64,UEsD" = [content_type; content_string]
    /\ (4 * List.length [x50; x4b; x03]%byte <= 3 * alphabet_count content_string)%nat
    /\ (4 * List.length [x50; x4b; x03]%byte <= 3 * String.length "data:;base64,UEsD")%nat.
Proof.
  apply (decoded_size_bound "data:;base64,UEsD" [x50; x4b; x03]%byte).
  reflexivity.
Defined.

Lemma second_template_needs_wider_sheet_demo :
  (exists decoded sh,
     transport_decode "data:application/vnd.ms-excel;base64,UEsD" = Ok decoded
     /\ reader_of wider_sheet decoded = Some sh
     /\ (76 <= List.length (hd [] (skipn 8 sh)))%nat)
  /\ exists out',
       update_output (reader_of wider_sheet) parse_digits round_binary64 str_float
         (Some "data:application/vnd.ms-excel;base64,UEsD") columns_to_keep_page1
       = Ok out'.
Proof.
  apply (second_template_needs_wider_sheet (reader_of wider_sheet) parse_digits
           round_binary64 str_float "data:application/vnd.ms-excel;base64,UEsD"
           wider_output).
  vm_compute. reflexivity.
Defined.

Lemma bar_traces_skip_two_demo :
  List.length (traces_of demo_bar) = 6%nat
  /\ Forall (fun tr =>
               List.length (bar_x tr) = (List.length (dt_data demo_table) - 2)%nat
               /\ List.length (bar_y tr) = (List.length (dt_data demo_table) - 2)%nat)
            (traces_of demo_bar).
Proof.
  apply (bar_traces_skip_two (reader_of demo_sheet) parse_digits round_binary64
           str_float "data:application/vnd.ms-excel;base64,UEsD"
           columns_to_keep_page1 demo_table demo_bar demo_pie).
  vm_compute. reflexivity.
Defined.

(** The second student of the small workbook has no number in any week. *)
Lemma blank_percentage_iff_no_score_demo :
  (field "Percentage" (demo_record 3) = Some (Str EmptyString)
     <-> forall q, ~ In (Num q) (week_fields (demo_record 3)))
  /\ (field "Percentage" (demo_record 3) = Some (Str EmptyString)
     <-> field "Highest_Star" (demo_record 3) = Some NaN).
Proof.
  apply (blank_percentage_iff_no_score (reader_of demo_sheet) parse_digits
           round_binary64 str_float "data:application/vnd.ms-excel;base64,UEsD"
           columns_to_keep_page1 demo_table demo_bar demo_pie (demo_record 3)).
  - vm_compute. reflexivity.
  - vm_compute. tauto.
Defined.

Lemma pie_slices_bounded_demo :
  exists slice,
    slices_of demo_pie = [slice]
    /\ List.length (pie_labels slice) = List.length (pie_values slice)
    /\ Forall (fun n => (0 < n)%nat) (pie_values slice)
    /\ (List.length (pie_values slice)
        <= count_defined (map (field_or_nan "Highest_Star") (dt_data demo_table)))%nat
    /\ (List.length (pie_values slice) <= List.length (dt_data demo_table))%nat.
Proof.
  apply (pie_slices_bounded (reader_of demo_sheet) parse_digits round_binary64
           str_float "data:application/vnd.ms-excel;base64,UEsD"
           columns_to_keep_page1 demo_table demo_bar demo_pie).
  vm_compute. reflexivity.
Defined.


Lemma percentage_reads_back_demo :
  exists text y,
    field "Percentage" (demo_record 4) = Some (Str (text ++ "%"))
    /\ two_decimals text
    /\ parse_2f text = Some y
    /\ (Qabs (y - 80) <= 1 # 200)%Q.
Proof.
  apply (percentage_reads_back (reader_of demo_sheet) parse_digits round_binary64
           str_float "data:application/vnd.ms-excel;base64,UEsD"
           columns_to_keep_page1 demo_table demo_bar demo_pie (demo_record 4) 4 80).
  - vm_compute. reflexivity.
  - vm_compute. tauto.
  - vm_compute. reflexivity.
  - vm_compute. reflexivity.
  - vm_compute. reflexivity.
Defined.
